(** * ofxFFmpeg::Recorder — a shallow embedding of src/ofxFFmpeg.{h,cpp}

    The recorder pipes raw RGB frames to an ffmpeg subprocess.  The caller
    thread runs [start], [stop], [wantsFrame] and [addFrame]; one worker
    thread runs [processFrame] and drains the frame queue into the pipe.

    Conventions of the embedding
    - [unsigned int] and [size_t] values are integers in [Z] with the
      wrap-around of [++] and of [framesToWrite - 1] written out;
    - [float] seconds and the [TimePoint]s of the steady clock are exact
      rationals in [Q]; the conversion of a [float] to [size_t] truncates
      toward zero and is undefined when the truncated value is not
      representable, which the model reports as [None];
    - every [Clock::now()] reading, the outcome of [popen] and of [fwrite],
      and the file-system query are inputs of the functions that consume them;
    - the worker thread is a program counter stored in [m_thread]; one
      [drain_step] executes the code between two accesses to shared state.
    - log statements have no effect on the state and are left out, as is
      [m_lastFrameTime], which the source only ever assigns. *)

From Stdlib Require Import ZArith QArith Qround Bool List String Lia.
Import ListNotations.

Local Open Scope Z_scope.

(** ** Data model *)

(** [struct RecorderSettings] (ofxFFmpeg.h, lines 6-17). *)
Record RecorderSettings := mkSettings {
  outputPath      : string;
  videoResolution : Z * Z;
  fps             : Q;
  bitrate         : Z;
  videoCodec      : string;
  extraInputArgs  : string;
  extraOutputArgs : string;
  allowOverwrite  : bool;
  ffmpegPath      : string
}.

Definition defaultSettings : RecorderSettings :=
  {| outputPath      := "output.mp4";
     videoResolution := (640, 480);
     fps             := 30 # 1;
     bitrate         := 20000;
     videoCodec      := "libx264";
     extraInputArgs  := EmptyString;
     extraOutputArgs := "-pix_fmt yuv420p -vsync 1 -g 1";
     allowOverwrite  := true;
     ffmpegPath      := "ffmpeg" |}.

Definition set_ffmpegPath (s : RecorderSettings) (p : string) : RecorderSettings :=
  {| outputPath      := outputPath s;
     videoResolution := videoResolution s;
     fps             := fps s;
     bitrate         := bitrate s;
     videoCodec      := videoCodec s;
     extraInputArgs  := extraInputArgs s;
     extraOutputArgs := extraOutputArgs s;
     allowOverwrite  := allowOverwrite s;
     ffmpegPath      := p |}.

(** [std::string::empty]. *)
Definition empty (s : string) : bool :=
  match s with EmptyString => true | String _ _ => false end.

(** The part of openFrameworks' [ofPixels] that the recorder touches: the
    allocation flag behind [isAllocated()], the declared size, and the bytes
    behind [getData()]. *)
Record ofPixels := mkPixels {
  isAllocated : bool;
  getWidth    : Z;
  getHeight   : Z;
  getData     : list Z
}.

(** What [addFrame] hands to the queue.  [OwnedCopy p] is the pointer
    [pixPtr] itself, the result of [new ofPixels( pixels )], which owns its
    bytes.  [ExternalView p] is a fresh [pixRef] set up with
    [setFromExternalPixels] on the bytes of [pixPtr]: it reads the same bytes
    and owns none. *)
Inductive QueuedPixels :=
| OwnedCopy    (p : ofPixels)
| ExternalView (p : ofPixels).

Definition is_owner (e : QueuedPixels) : bool :=
  match e with OwnedCopy _ => true | ExternalView _ => false end.

Definition pixels_of (e : QueuedPixels) : ofPixels :=
  match e with OwnedCopy p => p | ExternalView p => p end.

(** Modelled from the spec: [LockFreeQueue<ofPixels*>] is declared in
    ofxFFmpegHelpers.h, which is not part of the sources at hand.  Section 4.2
    of the specification describes it as a strict FIFO with a push that never
    blocks, a pop that reports whether an element was available, and a size
    query. *)
Module LockFreeQueue.

(** Modelled from the spec: the queue is its content, oldest entry first. *)
Definition t := list QueuedPixels.

(** Modelled from the spec: [produce] is the push, behind every entry that is
    already queued. *)
Definition produce (q : t) (e : QueuedPixels) : t := q ++ [e].

(** Modelled from the spec: [consume] is the pop; it fails on an empty queue
    and otherwise yields the oldest entry. *)
Definition consume (q : t) : option (QueuedPixels * t) :=
  match q with
  | []        => None
  | e :: rest => Some (e, rest)
  end.

(** Modelled from the spec: the number of queued entries. *)
Definition size (q : t) : Z := Z.of_nat (List.length q).

End LockFreeQueue.

(** [FILE* m_ffmpegPipe]: null, or the write end of the pipe to ffmpeg. *)
Inductive FILEptr := nullptr | ffmpegStdin.

Definition non_null (f : FILEptr) : bool :=
  match f with nullptr => false | ffmpegStdin => true end.

(** Control points of [Recorder::processFrame], one for each place where the
    worker reads or writes state that it shares with the caller. *)
Inductive DrainPC :=
| AtOuterTest                       (* line 201: outer loop condition      *)
| AtInnerTest (lastFrameTime : Q)   (* line 208: inner loop condition      *)
| InBody      (lastFrameTime : Q)   (* lines 211-253: body of the inner loop *)
| AtClosePipe.                      (* line 262: after both loops          *)

(** [std::thread m_thread]. *)
Inductive Thread :=
| NotJoinable                (* default constructed, or already joined *)
| Running (pc : DrainPC)     (* [processFrame] is executing            *)
| Returned.                  (* [processFrame] has returned, not joined *)

(** The data members of [class Recorder] (ofxFFmpeg.h, lines 39-46). *)
Record Recorder := mkRecorder {
  m_settings             : RecorderSettings;
  m_isRecording          : bool;
  m_isReady              : bool;
  m_shouldQuitProcessing : bool;
  m_ffmpegPipe           : FILEptr;
  m_recordStartTime      : Q;
  m_nAddedFrames         : Z;
  m_thread               : Thread;
  m_frames               : LockFreeQueue.t
}.

(** [Recorder::Recorder()].  The constructor initialises [m_isRecording],
    [m_isReady] and [m_nAddedFrames] only; the initial content of
    [m_shouldQuitProcessing] and of the time point are whatever the
    arguments say. *)
Definition Recorder_new (quit0 : bool) (t0 : Q) : Recorder :=
  {| m_settings             := defaultSettings;
     m_isRecording          := false;
     m_isReady              := true;
     m_shouldQuitProcessing := quit0;
     m_ffmpegPipe           := nullptr;
     m_recordStartTime      := t0;
     m_nAddedFrames         := 0;
     m_thread               := NotJoinable;
     m_frames               := [] |}.

(** Field updates. *)
Definition with_settings (r : Recorder) (s : RecorderSettings) : Recorder :=
  mkRecorder s (m_isRecording r) (m_isReady r) (m_shouldQuitProcessing r)
             (m_ffmpegPipe r) (m_recordStartTime r) (m_nAddedFrames r)
             (m_thread r) (m_frames r).
Definition with_isRecording (r : Recorder) (b : bool) : Recorder :=
  mkRecorder (m_settings r) b (m_isReady r) (m_shouldQuitProcessing r)
             (m_ffmpegPipe r) (m_recordStartTime r) (m_nAddedFrames r)
             (m_thread r) (m_frames r).
Definition with_isReady (r : Recorder) (b : bool) : Recorder :=
  mkRecorder (m_settings r) (m_isRecording r) b (m_shouldQuitProcessing r)
             (m_ffmpegPipe r) (m_recordStartTime r) (m_nAddedFrames r)
             (m_thread r) (m_frames r).
Definition with_shouldQuit (r : Recorder) (b : bool) : Recorder :=
  mkRecorder (m_settings r) (m_isRecording r) (m_isReady r) b
             (m_ffmpegPipe r) (m_recordStartTime r) (m_nAddedFrames r)
             (m_thread r) (m_frames r).
Definition with_pipe (r : Recorder) (f : FILEptr) : Recorder :=
  mkRecorder (m_settings r) (m_isRecording r) (m_isReady r)
             (m_shouldQuitProcessing r) f (m_recordStartTime r)
             (m_nAddedFrames r) (m_thread r) (m_frames r).
Definition with_startTime (r : Recorder) (t : Q) : Recorder :=
  mkRecorder (m_settings r) (m_isRecording r) (m_isReady r)
             (m_shouldQuitProcessing r) (m_ffmpegPipe r) t
             (m_nAddedFrames r) (m_thread r) (m_frames r).
Definition with_nAdded (r : Recorder) (n : Z) : Recorder :=
  mkRecorder (m_settings r) (m_isRecording r) (m_isReady r)
             (m_shouldQuitProcessing r) (m_ffmpegPipe r) (m_recordStartTime r)
             n (m_thread r) (m_frames r).
Definition with_thread (r : Recorder) (t : Thread) : Recorder :=
  mkRecorder (m_settings r) (m_isRecording r) (m_isReady r)
             (m_shouldQuitProcessing r) (m_ffmpegPipe r) (m_recordStartTime r)
             (m_nAddedFrames r) t (m_frames r).
Definition with_frames (r : Recorder) (q : LockFreeQueue.t) : Recorder :=
  mkRecorder (m_settings r) (m_isRecording r) (m_isReady r)
             (m_shouldQuitProcessing r) (m_ffmpegPipe r) (m_recordStartTime r)
             (m_nAddedFrames r) (m_thread r) q.

(** ** Integer widths and the float-to-integer conversion *)

Definition UINT_MODULUS : Z := 2 ^ 32.     (* unsigned int *)
Definition SIZE_MODULUS : Z := 2 ^ 64.     (* size_t       *)

(** Truncation toward zero, the rounding of a floating-integral conversion. *)
Definition Qtruncate (q : Q) : Z :=
  if Qle_bool 0 q then Qfloor q else Qceiling q.

(** [size_t n = q;] for a floating [q]: the truncated value when [size_t]
    can hold it, undefined behaviour otherwise. *)
Definition to_size_t (q : Q) : option Z :=
  let t := Qtruncate q in
  if (0 <=? t) && (t <? SIZE_MODULUS) then Some t else None.

(** ** Small member functions *)

(** [Recorder::numFramesInQueue] (lines 278-282). *)
Definition numFramesInQueue (r : Recorder) : Z := LockFreeQueue.size (m_frames r).

(** [Recorder::isPipeOpen] (lines 321-325). *)
Definition isPipeOpen (r : Recorder) : bool := non_null (m_ffmpegPipe r).

(** [Recorder::getRecordedDuration] (ofxFFmpeg.h, line 33). *)
Definition getRecordedDuration (r : Recorder) : Q :=
  (inject_Z (m_nAddedFrames r) / fps (m_settings r))%Q.

(** [Recorder::openPipe] (lines 284-300); [popen_ok] tells whether [P_OPEN]
    returned a stream. *)
Definition openPipe (popen_ok : bool) (r : Recorder) : Recorder * bool :=
  if popen_ok
  then (with_isReady (with_pipe r ffmpegStdin) false, true)
  else (with_isReady (with_pipe r nullptr) true, false).

(** [Recorder::closePipe] (lines 302-319). *)
Definition closePipe (r : Recorder) : Recorder * bool :=
  (with_isReady (with_pipe r nullptr) true, true).

(** [Recorder::clearQueue] (lines 265-276): consume until the queue reports
    that nothing is left. *)
Fixpoint clearQueue_loop (q : LockFreeQueue.t) : LockFreeQueue.t :=
  match q with
  | []        => q
  | _ :: rest => clearQueue_loop rest
  end.

Definition clearQueue (r : Recorder) : Recorder :=
  with_frames r (clearQueue_loop (m_frames r)).

(** [Recorder::stop] (lines 122-125). *)
Definition stop (r : Recorder) : Recorder := with_isRecording r false.

(** ** Pacing *)

(** The two statements shared by [wantsFrame] (lines 131-132) and [addFrame]
    (lines 164-165):
    [delta = Seconds( now - m_recordStartTime ).count() - getRecordedDuration()]
    and [size_t framesToWrite = delta * m_settings.fps]. *)
Definition framesToWrite (now startTime recordedDuration fps_ : Q) : option Z :=
  let delta := ((now - startTime) - recordedDuration)%Q in
  to_size_t (delta * fps_)%Q.

Definition framesToWrite_of (now : Q) (r : Recorder) : option Z :=
  framesToWrite now (m_recordStartTime r) (getRecordedDuration r)
                (fps (m_settings r)).

(** [Recorder::wantsFrame] (lines 128-136). *)
Definition wantsFrame (now : Q) (r : Recorder) : option bool :=
  if m_isRecording r && isPipeOpen r
  then option_map (fun n => 0 <? n) (framesToWrite_of now r)
  else Some false.

(** ** [Recorder::start] (lines 39-119)

    [fileExists] answers [ofFile::doesFileExist( ofToDataPath( path, true ) )]
    and [popen_ok] is the outcome of [P_OPEN].  The command line built on
    lines 76-100 is passed to [P_OPEN] and to the log only. *)
Definition start (fileExists : string -> bool) (popen_ok : bool)
           (r : Recorder) (settings : RecorderSettings)
           (forceIfNotReady : bool) : Recorder * bool :=
  if m_isRecording r then (r, false)                               (* 42-45 *)
  else
    let busy :=                                                    (* 47-56 *)
      if m_isReady r then Some r
      else if forceIfNotReady
           then Some (clearQueue (with_shouldQuit r true))
           else None in
    match busy with
    | None => (r, false)
    | Some r1 =>
        if empty (outputPath settings) then (r1, false)            (* 58-61 *)
        else if fileExists (outputPath (m_settings r1))
                && negb (allowOverwrite (m_settings r1))
        then (r1, false)                                           (* 63-66 *)
        else
          let r2 := with_settings r1 settings in                   (* 68 *)
          let r3 :=                                                (* 70-72 *)
            if empty (ffmpegPath (m_settings r2))
            then with_settings r2 (set_ffmpegPath (m_settings r2) "ffmpeg")
            else r2 in
          let r4 := with_nAdded r3 0 in                            (* 74 *)
          let r5 := if isPipeOpen r4 then fst (closePipe r4) else r4 in
          let r6 := with_shouldQuit r5 false in                    (* 107 *)
          let (r7, opened) := openPipe popen_ok r6 in              (* 111 *)
          let r8 := if opened then with_isRecording r7 true else r7 in
          (r8, m_isRecording r8)                                   (* 118 *)
    end.

(** ** [Recorder::addFrame] (lines 139-196) *)

(** How a call can end in the model. *)
Inductive Outcome (A : Type) :=
| Done (a : A)      (* the call returned [a]                               *)
| OutOfFuel         (* the loop needs more iterations than were granted    *)
| Undefined         (* [delta * fps] does not fit [size_t]                 *)
| Blocked.          (* [m_thread.join()] waits for a worker still running  *)
Arguments Done {A} a.
Arguments OutOfFuel {A}.
Arguments Undefined {A}.
Arguments Blocked {A}.

(** The variables the loop on lines 170-193 changes. *)
Record AddLoop := mkAddLoop {
  al_nAdded  : Z;                    (* m_nAddedFrames *)
  al_written : Z;                    (* written        *)
  al_pixPtr  : option ofPixels;      (* pixPtr, [None] for nullptr *)
  al_frames  : LockFreeQueue.t       (* m_frames       *)
}.

(** One pass through the loop body: lines 172-192. *)
Definition addFrame_body (pixels : ofPixels) (framesToWrite_ : Z)
           (st : AddLoop) : AddLoop :=
  let pixPtr :=
    match al_pixPtr st with
    | None   => pixels            (* new ofPixels( pixels ) *)
    | Some p => p
    end in
  let entry :=
    if al_written st =? (framesToWrite_ - 1) mod SIZE_MODULUS
    then OwnedCopy pixPtr
    else ExternalView pixPtr in
  {| al_nAdded  := (al_nAdded st + 1) mod UINT_MODULUS;
     al_written := (al_written st + 1) mod SIZE_MODULUS;
     al_pixPtr  := Some pixPtr;
     al_frames  := LockFreeQueue.produce (al_frames st) entry |}.

(** [while ( m_nAddedFrames == 0 || framesToWrite > written )]. *)
Definition addFrame_cond (framesToWrite_ : Z) (st : AddLoop) : bool :=
  (al_nAdded st =? 0) || (al_written st <? framesToWrite_).

Fixpoint addFrame_loop (fuel : nat) (pixels : ofPixels) (framesToWrite_ : Z)
         (st : AddLoop) : option AddLoop :=
  match fuel with
  | O => None
  | S fuel' =>
      if addFrame_cond framesToWrite_ st
      then addFrame_loop fuel' pixels framesToWrite_
                         (addFrame_body pixels framesToWrite_ st)
      else Some st
  end.

(** Lines 156-161: the first frame of a session joins the previous worker,
    starts a new one and takes the start time [t_start]. *)
Definition addFrame_first (t_start : Q) (r : Recorder) : option Recorder :=
  if m_nAddedFrames r =? 0
  then match m_thread r with
       | Running _ => None
       | NotJoinable | Returned =>
           Some (with_startTime (with_thread r (Running AtOuterTest)) t_start)
       end
  else Some r.

(** [t_start] is the clock reading of line 159 and [t_now] that of line 164.
    The result pairs the recorder after the call with the returned count. *)
Definition addFrame (fuel : nat) (t_start t_now : Q) (r : Recorder)
           (pixels : ofPixels) : Outcome (Recorder * Z) :=
  if negb (m_isRecording r) then Done (r, 0)                       (* 141-144 *)
  else if negb (non_null (m_ffmpegPipe r)) then Done (r, 0)        (* 146-149 *)
  else if negb (isAllocated pixels) then Done (r, 0)               (* 151-154 *)
  else
    match addFrame_first t_start r with
    | None => Blocked
    | Some r1 =>
        match framesToWrite_of t_now r1 with
        | None => Undefined
        | Some n =>
            let st0 := {| al_nAdded  := m_nAddedFrames r1;
                          al_written := 0;
                          al_pixPtr  := None;
                          al_frames  := m_frames r1 |} in
            match addFrame_loop fuel pixels n st0 with
            | None => OutOfFuel
            | Some st =>
                Done (with_frames (with_nAdded r1 (al_nAdded st)) (al_frames st),
                      al_written st)
            end
        end
    end.

(** ** [Recorder::processFrame] (lines 199-263) *)

(** What the environment supplies to one step of the worker: the clock
    reading of line 203 or 211, the reading of line 244, the value returned
    by [fwrite] and the value of [ferror]. *)
Record DrainInput := mkDrainInput {
  di_now     : Q;
  di_after   : Q;
  di_fwrite  : Z;
  di_ferror  : bool
}.

(** [dataLength] of line 230: the product of three [int]s, taken not to
    overflow, converted to [size_t]. *)
Definition dataLength (r : Recorder) : Z :=
  (fst (videoResolution (m_settings r))
   * snd (videoResolution (m_settings r)) * 3) mod SIZE_MODULUS.

(** The test of line 236. *)
Definition write_failed (written dataLength_ : Z) (ferror_ : bool) : bool :=
  (written <=? 0) || negb (written =? dataLength_) || ferror_.

(** One step of the worker.  The second component lists the buffers whose
    bytes the step handed to [fwrite].  [None]: no worker is running. *)
Definition drain_step (i : DrainInput) (r : Recorder)
  : option (Recorder * list QueuedPixels) :=
  match m_thread r with
  | Running AtOuterTest =>
      if m_isRecording r && negb (m_shouldQuitProcessing r)          (* 201 *)
      then Some (with_thread r (Running (AtInnerTest (di_now i))), [])
      else Some (with_thread r (Running AtClosePipe), [])
  | Running (AtInnerTest lastFrameTime) =>
      if (0 <? numFramesInQueue r) && negb (m_shouldQuitProcessing r) (* 208 *)
      then Some (with_thread r (Running (InBody lastFrameTime)), [])
      else (* needsQuit is false here, so line 255 falls through *)
           Some (with_thread r (Running AtOuterTest), [])
  | Running (InBody lastFrameTime) =>
      let framedur := (1 / fps (m_settings r))%Q in                  (* 204 *)
      let delta := (di_now i - lastFrameTime)%Q in                   (* 211 *)
      if Qle_bool framedur delta then                                (* 213 *)
        match LockFreeQueue.consume (m_frames r) with                (* 222 *)
        | None => Some (with_thread r (Running (AtInnerTest lastFrameTime)), [])
        | Some (pixels, rest) =>
            let r1 := with_frames r rest in
            let written :=                                           (* 233 *)
              if non_null (m_ffmpegPipe r1) then di_fwrite i else 0 in
            let handed :=
              if non_null (m_ffmpegPipe r1) then [pixels] else [] in
            let needsQuit :=                                         (* 236 *)
              write_failed written (dataLength r1) (di_ferror i) in
            if needsQuit                                             (* 251, 255 *)
            then Some (with_thread r1 (Running AtClosePipe), handed)
            else Some (with_thread r1 (Running (AtInnerTest (di_after i))),
                       handed)
        end
      else Some (with_thread r (Running (AtInnerTest lastFrameTime)), [])
  | Running AtClosePipe =>
      Some (with_thread (fst (closePipe r)) Returned, [])            (* 262 *)
  | NotJoinable | Returned => None
  end.

(** ** Interleavings of the caller and the worker *)

Inductive CallerEvent :=
| CallStart    (settings : RecorderSettings) (forceIfNotReady popen_ok : bool)
| CallStop
| CallAddFrame (fuel : nat) (t_start t_now : Q) (pixels : ofPixels).

Inductive Event :=
| Caller (c : CallerEvent)
| Worker (i : DrainInput).

(** The recorder together with everything handed to [fwrite] so far. *)
Record World := mkWorld {
  recorder : Recorder;
  sink     : list QueuedPixels
}.

Definition caller_step (fileExists : string -> bool) (c : CallerEvent)
           (r : Recorder) : option Recorder :=
  match c with
  | CallStart settings force popen_ok =>
      Some (fst (start fileExists popen_ok r settings force))
  | CallStop => Some (stop r)
  | CallAddFrame fuel t_start t_now pixels =>
      match addFrame fuel t_start t_now r pixels with
      | Done (r', _) => Some r'
      | _ => None
      end
  end.

Definition step (fileExists : string -> bool) (e : Event) (w : World)
  : option World :=
  match e with
  | Caller c =>
      option_map (fun r => mkWorld r (sink w))
                 (caller_step fileExists c (recorder w))
  | Worker i =>
      option_map (fun rh => mkWorld (fst rh) (sink w ++ snd rh))
                 (drain_step i (recorder w))
  end.

Fixpoint run (fileExists : string -> bool) (es : list Event) (w : World)
  : option World :=
  match es with
  | []       => Some w
  | e :: es' =>
      match step fileExists e w with
      | None    => None
      | Some w' => run fileExists es' w'
      end
  end.

(** ** Vocabulary of the statements *)

(** The entries that [k] consecutive passes push when [written] starts at
    [from]: a pass hands over the owning pointer exactly when [written] equals
    the wrapped [framesToWrite - 1]. *)
Fixpoint replicas (pixels : ofPixels) (framesToWrite_ from : Z) (k : nat)
  : list QueuedPixels :=
  match k with
  | O => []
  | S k' =>
      (if from =? (framesToWrite_ - 1) mod SIZE_MODULUS
       then OwnedCopy pixels else ExternalView pixels)
      :: replicas pixels framesToWrite_ (from + 1) k'
  end.

(** The pass that the test [m_nAddedFrames == 0] adds after the due count is
    reached: it runs when the counter, first frame or wrapped, is zero. *)
Definition extra_pass (nAdded n : Z) : Z :=
  if (nAdded + n) mod UINT_MODULUS =? 0 then 1 else 0.

Definition worker_running (r : Recorder) : bool :=
  match m_thread r with Running _ => true | NotJoinable | Returned => false end.

(** The start time that the pacing of this call uses: the first frame of a
    session has just stored [t_start]. *)
Definition start_of (t_start : Q) (r : Recorder) : Q :=
  if m_nAddedFrames r =? 0 then t_start else m_recordStartTime r.

(** The three guards of lines 141-154 let the call through. *)
Definition accepted (r : Recorder) (pixels : ofPixels) : Prop :=
  m_isRecording r = true /\ isPipeOpen r = true /\ isAllocated pixels = true.

(** Calls made by the caller thread, one after the other. *)
Fixpoint run_caller (fileExists : string -> bool) (cs : list CallerEvent)
         (r : Recorder) : option Recorder :=
  match cs with
  | []       => Some r
  | c :: cs' =>
      match caller_step fileExists c r with
      | None    => None
      | Some r' => run_caller fileExists cs' r'
      end
  end.

(** A schedule of worker steps that empties the queue [q]: two steps for each
    entry, the test of the inner loop and then a body that finds a frame
    duration elapsed and a pipe that takes all [len] bytes. *)
Fixpoint drains (framedur : Q) (len : Z) (lastFrameTime : Q)
         (q : list QueuedPixels) (inputs : list DrainInput) : Prop :=
  match q, inputs with
  | [], [] => True
  | _ :: q', _ :: body :: inputs' =>
      Qle_bool framedur (di_now body - lastFrameTime) = true
      /\ di_fwrite body = len
      /\ di_ferror body = false
      /\ drains framedur len (di_after body) q' inputs'
  | _, _ => False
  end.

(** ** Sample values *)

Definition no_files : string -> bool := fun _ => false.

(** A 2x2 RGB frame. *)
Definition frame2x2 : ofPixels :=
  {| isAllocated := true; getWidth := 2; getHeight := 2;
     getData := [255; 0; 0; 0; 255; 0; 0; 0; 255; 9; 9; 9] |}.

(** A default constructed [ofPixels]. *)
Definition frame_unallocated : ofPixels :=
  {| isAllocated := false; getWidth := 0; getHeight := 0; getData := [] |}.

(** A recorder on which [start( RecorderSettings() )] has succeeded. *)
Definition session0 : Recorder :=
  {| m_settings             := defaultSettings;
     m_isRecording          := true;
     m_isReady              := false;
     m_shouldQuitProcessing := false;
     m_ffmpegPipe           := ffmpegStdin;
     m_recordStartTime      := 0;
     m_nAddedFrames         := 0;
     m_thread               := NotJoinable;
     m_frames               := [] |}.

(** The same session after its first frame, submitted at time 0. *)
Definition session1 : Recorder :=
  {| m_settings             := defaultSettings;
     m_isRecording          := true;
     m_isReady              := false;
     m_shouldQuitProcessing := false;
     m_ffmpegPipe           := ffmpegStdin;
     m_recordStartTime      := 0;
     m_nAddedFrames         := 1;
     m_thread               := Running AtOuterTest;
     m_frames               := [ExternalView frame2x2] |}.

(** A recorder that was stopped while its queue still holds a frame. *)
Definition draining1 : Recorder := stop session1.

Definition settings_without_path : RecorderSettings :=
  {| outputPath      := EmptyString;
     videoResolution := (640, 480);
     fps             := 30 # 1;
     bitrate         := 20000;
     videoCodec      := "libx264";
     extraInputArgs  := EmptyString;
     extraOutputArgs := EmptyString;
     allowOverwrite  := true;
     ffmpegPath      := "ffmpeg" |}.

Definition settings_keep_existing : RecorderSettings :=
  {| outputPath      := "take1.mp4";
     videoResolution := (640, 480);
     fps             := 30 # 1;
     bitrate         := 20000;
     videoCodec      := "libx264";
     extraInputArgs  := EmptyString;
     extraOutputArgs := EmptyString;
     allowOverwrite  := false;
     ffmpegPath      := "ffmpeg" |}.

(** A file system in which take1.mp4 is the only file. *)
Definition only_take1 : string -> bool :=
  fun path => String.eqb path "take1.mp4".

(** A worker in the body of the inner loop of [session1]'s recording, 40 ms
    after the previous write, and a pipe that accepts 100 bytes only. *)
Definition session1_in_body : Recorder :=
  with_thread session1 (Running (InBody 0)).

Definition short_write : DrainInput :=
  {| di_now := 1 # 25; di_after := 1 # 25; di_fwrite := 100;
     di_ferror := false |}.

(** ** Vocabulary of the further properties *)

(** Lines 68-118 of [start]: what runs once the checks of lines 42-66 have
    let the call through, on the recorder [r1] those checks leave. *)
Definition adopt (popen_ok : bool) (r1 : Recorder)
           (settings : RecorderSettings) : Recorder * bool :=
  let r2 := with_settings r1 settings in
  let r3 :=
    if empty (ffmpegPath (m_settings r2))
    then with_settings r2 (set_ffmpegPath (m_settings r2) "ffmpeg")
    else r2 in
  let r4 := with_nAdded r3 0 in
  let r5 := if isPipeOpen r4 then fst (closePipe r4) else r4 in
  let r6 := with_shouldQuit r5 false in
  let (r7, opened) := openPipe popen_ok r6 in
  let r8 := if opened then with_isRecording r7 true else r7 in
  (r8, m_isRecording r8).

(** The settings as line 68-72 store them. *)
Definition adopted (settings : RecorderSettings) : RecorderSettings :=
  if empty (ffmpegPath settings) then set_ffmpegPath settings "ffmpeg"
  else settings.

(** The test of line 63, on the settings the recorder holds. *)
Definition refuses_overwrite (fileExists : string -> bool) (r : Recorder)
  : bool :=
  fileExists (outputPath (m_settings r)) && negb (allowOverwrite (m_settings r)).

(** A call [start( settings, true )]. *)
Definition forced (e : Event) : bool :=
  match e with
  | Caller (CallStart _ true _) => true
  | _ => false
  end.

(** The comment of ofxFFmpeg.h, line 40: ready means that the pipe is
    closed. *)
Definition ready_is_closed (r : Recorder) : Prop :=
  m_isReady r = negb (isPipeOpen r).

(** A ready recorder has no worker inside [processFrame]. *)
Definition ready_is_idle (r : Recorder) : Prop :=
  m_isReady r = true -> worker_running r = false.

(** The worker is at one of its two loop conditions. *)
Definition at_loop_test (r : Recorder) : bool :=
  match m_thread r with
  | Running AtOuterTest | Running (AtInnerTest _) => true
  | _ => false
  end.

(** A recording session without frames whose worker is at a loop
    condition. *)
Definition spinning (r : Recorder) : Prop :=
  m_isRecording r = true
  /\ m_shouldQuitProcessing r = false
  /\ m_frames r = []
  /\ at_loop_test r = true.

(** A short session: start, a first frame, three worker steps that write
    it, a second frame 100 ms after the start, stop, and two more worker
    steps. *)
Definition world0 : World := mkWorld (Recorder_new false 0) [].

Definition full_write (now : Q) : DrainInput :=
  {| di_now := now; di_after := now; di_fwrite := 921600;
     di_ferror := false |}.

Definition sample_events : list Event :=
  [ Caller (CallStart defaultSettings false true);
    Caller (CallAddFrame 2 0 0 frame2x2);
    Worker (full_write 0);
    Worker (full_write (1 # 10));
    Worker (full_write (1 # 10));
    Caller (CallAddFrame 3 0 (1 # 10) frame2x2);
    Caller CallStop;
    Worker (full_write (2 # 10));
    Worker (full_write (2 # 10)) ].

Definition sample_end : World :=
  Eval vm_compute in
    match run no_files sample_events world0 with
    | Some w => w
    | None => world0
    end.

(** No call of [start] among the events. *)
Definition is_start (e : Event) : bool :=
  match e with
  | Caller (CallStart _ _ _) => true
  | _ => false
  end.

(** The recorder of [draining1] with its worker at the condition of the
    inner loop, and a stretch without [start]: a frame that is refused and
    two worker steps that write the queued one. *)
Definition draining_world : World :=
  mkWorld (with_thread draining1 (Running (AtInnerTest 0))) [].

Definition stopped_events : list Event :=
  [ Caller (CallAddFrame 2 0 (1 # 10) frame2x2);
    Worker (full_write (1 # 10));
    Worker (full_write (1 # 10)) ].

Definition stopped_end : World :=
  Eval vm_compute in
    match run no_files stopped_events draining_world with
    | Some w => w
    | None => draining_world
    end.

(** The recorder after [start( settings, true )] has cancelled [draining1]
    and started a new session while the old worker had not yet run. *)
Definition restarted1 : Recorder :=
  fst (start no_files true draining1 defaultSettings true).

(** ** [addFrame] with the pacing arithmetic left open *)

(** The value that lines 164-165 store in [framesToWrite], as a function of
    the clock reading, [m_recordStartTime], [m_nAddedFrames] and
    [m_settings.fps]; [None] where the conversion to [size_t] is undefined.
    The source rounds the division behind [getRecordedDuration], the
    subtraction and the product to floating point, and [Seconds] is declared
    in ofxFFmpegHelpers.h, which is not among the sources.  [framesToWrite]
    does not round, so that its count can differ by one from the count of the
    source when [delta * fps] is within rounding distance of an integer.  A
    statement made for every [Pacing] does not depend on the rounding. *)
Definition Pacing : Type := Q -> Q -> Z -> Q -> option Z.

(** The pacing of [framesToWrite_of]. *)
Definition exact_pacing : Pacing :=
  fun now startTime nAdded fps_ =>
    framesToWrite now startTime (inject_Z nAdded / fps_)%Q fps_.

(** [Recorder::addFrame] (lines 139-196) with lines 164-165 computed by
    [pacing]. *)
Definition addFrame_paced (pacing : Pacing) (fuel : nat) (t_start t_now : Q)
           (r : Recorder) (pixels : ofPixels) : Outcome (Recorder * Z) :=
  if negb (m_isRecording r) then Done (r, 0)                       (* 141-144 *)
  else if negb (non_null (m_ffmpegPipe r)) then Done (r, 0)        (* 146-149 *)
  else if negb (isAllocated pixels) then Done (r, 0)               (* 151-154 *)
  else
    match addFrame_first t_start r with
    | None => Blocked
    | Some r1 =>
        match pacing t_now (m_recordStartTime r1) (m_nAddedFrames r1)
                     (fps (m_settings r1)) with
        | None => Undefined
        | Some n =>
            let st0 := {| al_nAdded  := m_nAddedFrames r1;
                          al_written := 0;
                          al_pixPtr  := None;
                          al_frames  := m_frames r1 |} in
            match addFrame_loop fuel pixels n st0 with
            | None => OutOfFuel
            | Some st =>
                Done (with_frames (with_nAdded r1 (al_nAdded st)) (al_frames st),
                      al_written st)
            end
        end
    end.

(** ** The entries that the calls of a run append *)

(** What a queue [after] holds behind the entries of [before]. *)
Definition appended (before after : LockFreeQueue.t) : list QueuedPixels :=
  skipn (List.length before) after.

(** The entries that one event appends to the queue: those of an [addFrame]
    that returns, none for any other event. *)
Definition queued_by_step (e : Event) (w : World) : list QueuedPixels :=
  match e with
  | Caller (CallAddFrame fuel t_start t_now pixels) =>
      match addFrame fuel t_start t_now (recorder w) pixels with
      | Done (r', _) => appended (m_frames (recorder w)) (m_frames r')
      | _ => []
      end
  | _ => []
  end.

(** The entries that the [addFrame] calls of a run append, in the order of
    the calls. *)
Fixpoint queued_by (fileExists : string -> bool) (es : list Event) (w : World)
  : list QueuedPixels :=
  match es with
  | [] => []
  | e :: es' =>
      queued_by_step e w
      ++ match step fileExists e w with
         | Some w' => queued_by fileExists es' w'
         | None => []
         end
  end.

(** A session that records 2x2 frames: start, a first frame, three worker
    steps that write it, a second frame 150 ms after the start that is due
    three times, four worker steps that write two of its entries, stop. *)
Definition settings2x2 : RecorderSettings :=
  {| outputPath      := "small.mp4";
     videoResolution := (2, 2);
     fps             := 30 # 1;
     bitrate         := 20000;
     videoCodec      := "libx264";
     extraInputArgs  := EmptyString;
     extraOutputArgs := EmptyString;
     allowOverwrite  := true;
     ffmpegPath      := "ffmpeg" |}.

Definition small_write (now : Q) : DrainInput :=
  {| di_now := now; di_after := now; di_fwrite := 12; di_ferror := false |}.

Definition small_events : list Event :=
  [ Caller (CallStart settings2x2 false true);
    Caller (CallAddFrame 2 0 0 frame2x2);
    Worker (small_write 0);
    Worker (small_write (1 # 10));
    Worker (small_write (1 # 10));
    Caller (CallAddFrame 4 0 (3 # 20) frame2x2);
    Worker (small_write (3 # 20));
    Worker (small_write (3 # 20));
    Worker (small_write (1 # 5));
    Worker (small_write (1 # 5));
    Caller CallStop ].

Definition small_end : World :=
  Eval vm_compute in
    match run no_files small_events world0 with
    | Some w => w
    | None => world0
    end.

(** [session1] after a second frame, submitted 150 ms after the start. *)
Definition session1_after_150ms : Recorder :=
  Eval vm_compute in
    match addFrame 4 0 (3 # 20) session1 frame2x2 with
    | Done (r', _) => r'
    | _ => session1
    end.

(** The calls that lead a fresh recorder to [restarted1]. *)
Definition forced_restart_events : list Event :=
  [ Caller (CallStart defaultSettings false true);
    Caller (CallAddFrame 2 0 0 frame2x2);
    Caller CallStop;
    Caller (CallStart defaultSettings true true) ].

(** * Properties *)

(** ** The conversion to [size_t] and the pacing count *)

Section Pacing.

Local Open Scope Q_scope.

Lemma Qtruncate_nonneg (q : Q) : 0 <= q -> Qtruncate q = Qfloor q.
Proof.
  intros H. unfold Qtruncate.
  destruct (Qle_bool 0 q) eqn:E; [reflexivity|].
  apply Qle_bool_iff in H. congruence.
Qed.

Lemma Qtruncate_neg (q : Q) : q < 0 -> Qtruncate q = Qceiling q.
Proof.
  intros H. unfold Qtruncate.
  destruct (Qle_bool 0 q) eqn:E; [|reflexivity].
  apply Qle_bool_iff in E. exfalso. exact (Qlt_not_le _ _ H E).
Qed.

Lemma Qfloor_nonneg (q : Q) : 0 <= q -> (0 <= Qfloor q)%Z.
Proof.
  intros H. change 0%Z with (Qfloor 0). now apply Qfloor_resp_le.
Qed.

Lemma Qceiling_nonpos (q : Q) : q <= 0 -> (Qceiling q <= 0)%Z.
Proof.
  intros H. change 0%Z with (Qceiling 0). now apply Qceiling_resp_le.
Qed.

(** Truncation toward zero is monotone. *)
Lemma Qtruncate_resp_le (a b : Q) : a <= b -> (Qtruncate a <= Qtruncate b)%Z.
Proof.
  intros Hab.
  destruct (Qlt_le_dec a 0) as [Ha|Ha], (Qlt_le_dec b 0) as [Hb|Hb].
  - rewrite !Qtruncate_neg by assumption. now apply Qceiling_resp_le.
  - rewrite Qtruncate_neg, Qtruncate_nonneg by assumption.
    pose proof (Qceiling_nonpos a (Qlt_le_weak _ _ Ha)).
    pose proof (Qfloor_nonneg b Hb). lia.
  - exfalso. apply (Qlt_not_le _ _ Hb). now apply Qle_trans with a.
  - rewrite !Qtruncate_nonneg by assumption. now apply Qfloor_resp_le.
Qed.

(** Above -1 the truncated value is not negative. *)
Lemma Qtruncate_lower (q : Q) : -1 < q -> (0 <= Qtruncate q)%Z.
Proof.
  intros H. destruct (Qlt_le_dec q 0) as [Hq|Hq].
  - rewrite Qtruncate_neg by assumption.
    pose proof (Qle_ceiling q) as Hc.
    assert (Hlt : inject_Z (-1) < inject_Z (Qceiling q))
      by (apply Qlt_le_trans with q; assumption).
    rewrite <- Zlt_Qlt in Hlt. lia.
  - rewrite Qtruncate_nonneg by assumption. now apply Qfloor_nonneg.
Qed.

Lemma Qtruncate_upper (q : Q) (m : Z) :
  (0 < m)%Z -> q < inject_Z m -> (Qtruncate q < m)%Z.
Proof.
  intros Hm H. destruct (Qlt_le_dec q 0) as [Hq|Hq].
  - rewrite Qtruncate_neg by assumption.
    pose proof (Qceiling_nonpos q (Qlt_le_weak _ _ Hq)). lia.
  - rewrite Qtruncate_nonneg by assumption.
    pose proof (Qfloor_le q) as Hf.
    assert (Hlt : inject_Z (Qfloor q) < inject_Z m)
      by (apply Qle_lt_trans with q; assumption).
    now rewrite <- Zlt_Qlt in Hlt.
Qed.

Lemma to_size_t_Some (q : Q) (n : Z) :
  to_size_t q = Some n ->
  n = Qtruncate q /\ (0 <= n < SIZE_MODULUS)%Z.
Proof.
  unfold to_size_t.
  destruct ((0 <=? Qtruncate q)%Z && (Qtruncate q <? SIZE_MODULUS)%Z) eqn:E;
    [|discriminate].
  intros [= <-]. apply andb_true_iff in E as [E1 E2]. lia.
Qed.

Lemma to_size_t_defined (q : Q) :
  -1 < q -> q < inject_Z SIZE_MODULUS -> to_size_t q = Some (Qtruncate q).
Proof.
  intros Hlo Hhi. unfold to_size_t.
  pose proof (Qtruncate_lower q Hlo).
  assert (Qtruncate q < SIZE_MODULUS)%Z
    by (apply Qtruncate_upper; [reflexivity | assumption]).
  replace ((0 <=? Qtruncate q)%Z && (Qtruncate q <? SIZE_MODULUS)%Z)
    with true; [reflexivity|].
  symmetry. apply andb_true_iff. split; lia.
Qed.

(** The value [delta * fps] of lines 131-132 and 164-165 grows with the
    clock reading. *)
Lemma scaled_delta_le (now1 now2 startTime recordedDuration fps_ : Q) :
  0 < fps_ -> now1 <= now2 ->
  ((now1 - startTime) - recordedDuration) * fps_
  <= ((now2 - startTime) - recordedDuration) * fps_.
Proof.
  intros Hf Hn. apply Qmult_le_compat_r; [|now apply Qlt_le_weak].
  unfold Qminus. repeat apply Qplus_le_l. exact Hn.
Qed.

(** Where the count is not negative it is the floor of [delta * fps]. *)
Lemma framesToWrite_floor (now startTime recordedDuration fps_ : Q) :
  0 <= ((now - startTime) - recordedDuration) * fps_ ->
  ((now - startTime) - recordedDuration) * fps_ < inject_Z SIZE_MODULUS ->
  framesToWrite now startTime recordedDuration fps_
  = Some (Qfloor (((now - startTime) - recordedDuration) * fps_)).
Proof.
  intros Hlo Hhi. unfold framesToWrite.
  rewrite to_size_t_defined; [now rewrite Qtruncate_nonneg| |assumption].
  apply Qlt_le_trans with 0; [reflexivity | assumption].
Qed.

End Pacing.

(** ** The replication loop of [addFrame] *)

Lemma UINT_MODULUS_eq : UINT_MODULUS = 4294967296.
Proof. reflexivity. Qed.

Lemma SIZE_MODULUS_eq : SIZE_MODULUS = 18446744073709551616.
Proof. reflexivity. Qed.

Lemma replicas_length pixels n from k :
  List.length (replicas pixels n from k) = k.
Proof.
  revert from. induction k as [|k IH]; intros from; simpl; [reflexivity|].
  now rewrite IH.
Qed.

Lemma replicas_app pixels n from a b :
  replicas pixels n from (a + b)
  = replicas pixels n from a ++ replicas pixels n (from + Z.of_nat a) b.
Proof.
  revert from. induction a as [|a IH]; intros from.
  - simpl. now rewrite Z.add_0_r.
  - cbn [Nat.add replicas app]. rewrite IH. do 3 f_equal. lia.
Qed.

Lemma replicas_pixels pixels n from k e :
  In e (replicas pixels n from k) -> pixels_of e = pixels.
Proof.
  revert from. induction k as [|k IH]; intros from; simpl; [tauto|].
  intros [<-|H]; [|eauto].
  now destruct (from =? (n - 1) mod SIZE_MODULUS).
Qed.



(** [k] passes in a row while [written] stays below [framesToWrite]. *)
Lemma addFrame_loop_iterate (k fuel : nat) pixels n nAdded written pixPtr q :
  0 <= nAdded < UINT_MODULUS ->
  0 <= written -> written + Z.of_nat k <= n -> n < SIZE_MODULUS ->
  pixPtr = None \/ pixPtr = Some pixels ->
  addFrame_loop (k + fuel) pixels n (mkAddLoop nAdded written pixPtr q)
  = addFrame_loop fuel pixels n
      (mkAddLoop ((nAdded + Z.of_nat k) mod UINT_MODULUS)
                 (written + Z.of_nat k)
                 (match k with O => pixPtr | S _ => Some pixels end)
                 (q ++ replicas pixels n written k)).
Proof.
  revert nAdded written pixPtr q.
  induction k as [|k IH]; intros nAdded written pixPtr q Hn Hw Hk Hmax Hp.
  - cbn [Nat.add replicas]. rewrite !Z.add_0_r, app_nil_r.
    now rewrite Z.mod_small.
  - cbn [Nat.add addFrame_loop].
    assert (Hc : addFrame_cond n (mkAddLoop nAdded written pixPtr q) = true).
    { unfold addFrame_cond. cbn [al_nAdded al_written].
      apply orb_true_iff. right. apply Z.ltb_lt. lia. }
    rewrite Hc. unfold addFrame_body.
    cbn [al_nAdded al_written al_pixPtr al_frames].
    assert (Hptr : match pixPtr with None => pixels | Some p => p end = pixels)
      by (destruct Hp as [->| ->]; reflexivity).
    rewrite Hptr.
    rewrite (Z.mod_small (written + 1)) by lia.
    rewrite IH; try lia; [|apply Z.mod_pos_bound; rewrite UINT_MODULUS_eq; lia
                          |now right].
    f_equal. f_equal.
    + rewrite Zplus_mod_idemp_l. f_equal. lia.
    + lia.
    + now destruct k.
    + unfold LockFreeQueue.produce. rewrite <- app_assoc. reflexivity.
Qed.

(** The loop ends, and this is what it leaves behind. *)
Lemma addFrame_loop_result pixels n nAdded q :
  0 <= nAdded < UINT_MODULUS -> 0 <= n ->
  n + extra_pass nAdded n < SIZE_MODULUS ->
  let total := n + extra_pass nAdded n in
  addFrame_loop (S (Z.to_nat total)) pixels n (mkAddLoop nAdded 0 None q)
  = Some (mkAddLoop ((nAdded + total) mod UINT_MODULUS) total
                    (if total =? 0 then None else Some pixels)
                    (q ++ replicas pixels n 0 (Z.to_nat total))).
Proof.
  intros Hn H0 Hmax total. subst total. unfold extra_pass in *.
  destruct (Z.eqb_spec ((nAdded + n) mod UINT_MODULUS) 0) as [Hz|Hz].
  - replace (S (Z.to_nat (n + 1))) with (Z.to_nat n + 2)%nat by lia.
    rewrite addFrame_loop_iterate; try lia; [|now left].
    rewrite Z2Nat.id, Z.add_0_l, Hz by lia.
    cbn [addFrame_loop]. unfold addFrame_cond at 1.
    cbn [al_nAdded al_written orb Z.eqb].
    unfold addFrame_body. cbn [al_nAdded al_written al_pixPtr al_frames].
    unfold addFrame_cond. cbn [al_nAdded al_written].
    rewrite (Z.mod_small (n + 1)) by lia.
    replace ((0 + 1) mod UINT_MODULUS) with 1 by reflexivity.
    replace (n + 1 <? n) with false by (symmetry; apply Z.ltb_ge; lia).
    cbn [Z.eqb orb].
    destruct (Z.eqb_spec (n + 1) 0); [lia|].
    f_equal. f_equal.
    + rewrite Z.add_assoc, <- Zplus_mod_idemp_l, Hz. reflexivity.
    + now destruct (Z.to_nat n).
    + replace (Z.to_nat (n + 1)) with (Z.to_nat n + 1)%nat by lia.
      rewrite replicas_app. unfold LockFreeQueue.produce.
      rewrite <- app_assoc. f_equal. f_equal.
      cbn [replicas]. rewrite Z2Nat.id, Z.add_0_l by lia.
      now destruct (Z.to_nat n).
  - rewrite Z.add_0_r in *.
    replace (S (Z.to_nat n)) with (Z.to_nat n + 1)%nat by lia.
    rewrite addFrame_loop_iterate; try lia; [|now left].
    rewrite Z2Nat.id, Z.add_0_l by lia.
    cbn [addFrame_loop]. unfold addFrame_cond. cbn [al_nAdded al_written].
    destruct (Z.eqb_spec ((nAdded + n) mod UINT_MODULUS) 0); [contradiction|].
    rewrite Z.ltb_irrefl. cbn [orb].
    f_equal. f_equal.
    destruct (Z.eqb_spec n 0) as [->|Hn0]; [reflexivity|].
    destruct (Z.to_nat n) eqn:E; [lia | reflexivity].
Qed.

(** ** [addFrame] as a whole *)

Lemma addFrame_first_Some t_start r :
  (m_nAddedFrames r = 0 -> worker_running r = false) ->
  exists r1,
    addFrame_first t_start r = Some r1
    /\ m_recordStartTime r1 = start_of t_start r
    /\ m_nAddedFrames r1 = m_nAddedFrames r
    /\ m_settings r1 = m_settings r
    /\ m_frames r1 = m_frames r.
Proof.
  intros Hj. unfold addFrame_first, start_of, worker_running in *.
  destruct (Z.eqb_spec (m_nAddedFrames r) 0) as [Hz|Hz].
  - specialize (Hj Hz).
    destruct (m_thread r); try discriminate; eexists; split;
      try reflexivity; cbn; auto.
  - eexists; split; [reflexivity|auto].
Qed.

(** An accepted call returns: with [n] frames due it runs [n] passes, plus
    the one that a zero counter forces, pushes one entry per pass and
    reports their number. *)
Lemma addFrame_accepts t_start t_now r pixels n :
  accepted r pixels ->
  0 <= m_nAddedFrames r < UINT_MODULUS ->
  (m_nAddedFrames r = 0 -> worker_running r = false) ->
  framesToWrite t_now (start_of t_start r) (getRecordedDuration r)
                (fps (m_settings r)) = Some n ->
  n + extra_pass (m_nAddedFrames r) n < SIZE_MODULUS ->
  let total := n + extra_pass (m_nAddedFrames r) n in
  exists r',
    addFrame (S (Z.to_nat total)) t_start t_now r pixels = Done (r', total)
    /\ m_frames r' = m_frames r ++ replicas pixels n 0 (Z.to_nat total)
    /\ m_nAddedFrames r' = (m_nAddedFrames r + total) mod UINT_MODULUS.
Proof.
  intros (Hrec & Hpipe & Halloc) Hn Hj Hftw Hmax total.
  destruct (addFrame_first_Some t_start r Hj)
    as (r1 & Hfirst & Hst & Hna & Hset & Hfr).
  assert (Hn0 : 0 <= n).
  { unfold framesToWrite in Hftw. apply to_size_t_Some in Hftw. lia. }
  unfold addFrame. unfold isPipeOpen in Hpipe.
  rewrite Hrec, Hpipe, Halloc, Hfirst. cbn [negb].
  unfold framesToWrite_of, getRecordedDuration.
  rewrite Hst, Hna, Hset. unfold getRecordedDuration in Hftw. rewrite Hftw.
  rewrite Hfr. fold total.
  pose proof (addFrame_loop_result pixels n (m_nAddedFrames r) (m_frames r)
                Hn Hn0 Hmax) as Hloop.
  cbv zeta in Hloop. fold total in Hloop. rewrite Hloop.
  eexists. split; [reflexivity|]. split; reflexivity.
Qed.

(** A call that fails a guard returns 0 and leaves the recorder as it was. *)
Lemma addFrame_rejects fuel t_start t_now r pixels :
  m_isRecording r = false \/ isPipeOpen r = false \/ isAllocated pixels = false ->
  addFrame fuel t_start t_now r pixels = Done (r, 0).
Proof.
  unfold addFrame, isPipeOpen. intros [H|[H|H]].
  - now rewrite H.
  - rewrite H. now destruct (m_isRecording r).
  - rewrite H. now destruct (m_isRecording r), (non_null (m_ffmpegPipe r)).
Qed.

(** The result of the loop does not depend on the fuel that was enough. *)
Lemma addFrame_loop_fuel_indep f1 : forall f2 pixels n st s1 s2,
  addFrame_loop f1 pixels n st = Some s1 ->
  addFrame_loop f2 pixels n st = Some s2 ->
  s1 = s2.
Proof.
  induction f1 as [|f1 IH]; intros f2 pixels n st s1 s2 H1 H2;
    [discriminate|].
  destruct f2 as [|f2]; [discriminate|].
  cbn [addFrame_loop] in H1, H2.
  destruct (addFrame_cond n st); [eauto | congruence].
Qed.

Lemma addFrame_fuel_indep f1 f2 t_start t_now r pixels o1 o2 :
  addFrame f1 t_start t_now r pixels = Done o1 ->
  addFrame f2 t_start t_now r pixels = Done o2 ->
  o1 = o2.
Proof.
  unfold addFrame.
  destruct (negb (m_isRecording r)); [congruence|].
  destruct (negb (non_null (m_ffmpegPipe r))); [congruence|].
  destruct (negb (isAllocated pixels)); [congruence|].
  destruct (addFrame_first t_start r) as [r1|]; [|discriminate].
  destruct (framesToWrite_of t_now r1) as [n|]; [|discriminate].
  destruct (addFrame_loop f1 _ _ _) as [s1|] eqn:E1; [|discriminate].
  destruct (addFrame_loop f2 _ _ _) as [s2|] eqn:E2; [|discriminate].
  rewrite (addFrame_loop_fuel_indep _ _ _ _ _ _ _ E1 E2). congruence.
Qed.

(** Whatever the loop pushes is [pixels], as an owner or as a view, behind
    what was queued before. *)
Lemma addFrame_loop_pushes fuel : forall pixels n st st',
  al_pixPtr st = None \/ al_pixPtr st = Some pixels ->
  addFrame_loop fuel pixels n st = Some st' ->
  exists pushed,
    al_frames st' = al_frames st ++ pushed
    /\ Forall (fun e => pixels_of e = pixels) pushed.
Proof.
  induction fuel as [|fuel IH]; intros pixels n st st' Hp H; [discriminate|].
  cbn [addFrame_loop] in H. destruct (addFrame_cond n st).
  - assert (Hptr : match al_pixPtr st with None => pixels | Some p => p end
                   = pixels) by (destruct Hp as [->| ->]; reflexivity).
    apply IH in H;
      [|right; unfold addFrame_body; cbn [al_pixPtr]; now rewrite Hptr].
    destruct H as (pushed & Hfr & Hall).
    unfold addFrame_body in Hfr. cbn [al_frames] in Hfr. rewrite Hptr in Hfr.
    unfold LockFreeQueue.produce in Hfr. rewrite <- app_assoc in Hfr.
    eexists. split; [exact Hfr|].
    constructor; [|exact Hall].
    now destruct (al_written st =? (n - 1) mod SIZE_MODULUS).
  - injection H as <-. exists []. now rewrite app_nil_r.
Qed.

Lemma addFrame_pushes fuel t_start t_now r pixels r' c :
  addFrame fuel t_start t_now r pixels = Done (r', c) ->
  exists pushed,
    m_frames r' = m_frames r ++ pushed
    /\ Forall (fun e => pixels_of e = pixels) pushed
    /\ (pushed <> [] -> accepted r pixels).
Proof.
  unfold addFrame, accepted, isPipeOpen.
  destruct (m_isRecording r); cbn [negb];
    [|intros [= <- <-]; exists []; rewrite app_nil_r; now repeat split].
  destruct (non_null (m_ffmpegPipe r)); cbn [negb];
    [|intros [= <- <-]; exists []; rewrite app_nil_r; now repeat split].
  destruct (isAllocated pixels); cbn [negb];
    [|intros [= <- <-]; exists []; rewrite app_nil_r; now repeat split].
  destruct (addFrame_first t_start r) as [r1|] eqn:E1; [|discriminate].
  destruct (framesToWrite_of t_now r1) as [n|]; [|discriminate].
  destruct (addFrame_loop fuel _ _ _) as [st|] eqn:E; [|discriminate].
  intros [= <- <-]. apply addFrame_loop_pushes in E; [|now left].
  destruct E as (pushed & Hfr & Hall). cbn in Hfr |- *.
  assert (Hq : m_frames r1 = m_frames r).
  { unfold addFrame_first in E1.
    destruct (m_nAddedFrames r =? 0); [|congruence].
    destruct (m_thread r); try discriminate; now injection E1 as <-. }
  exists pushed. rewrite Hfr, Hq. now repeat split.
Qed.

Example session0_by_start :
  start no_files true (Recorder_new false 0) defaultSettings false
  = (session0, true).
Proof. reflexivity. Qed.

Example session1_by_addFrame :
  addFrame 2 0 0 session0 frame2x2 = Done (session1, 1).
Proof. reflexivity. Qed.

(** The scenario of fps 30: a second frame 100 ms after the start is due
    twice and is queued as a view followed by the owner. *)
Example second_frame_after_100ms :
  exists r',
    addFrame 3 0 (1 # 10) session1 frame2x2 = Done (r', 2)
    /\ m_frames r' = [ExternalView frame2x2; ExternalView frame2x2;
                      OwnedCopy frame2x2]
    /\ m_nAddedFrames r' = 3.
Proof. eexists. split; [reflexivity|]. split; reflexivity. Qed.

(** ** [addFrame] for every pacing *)

Lemma addFrame_is_paced fuel t_start t_now r pixels :
  addFrame fuel t_start t_now r pixels
  = addFrame_paced exact_pacing fuel t_start t_now r pixels.
Proof. reflexivity. Qed.

Lemma addFrame_first_exact t_start r :
  (m_nAddedFrames r = 0 -> worker_running r = false) ->
  addFrame_first t_start r
  = Some (if m_nAddedFrames r =? 0
          then with_startTime (with_thread r (Running AtOuterTest)) t_start
          else r).
Proof.
  intros Hj. unfold addFrame_first, worker_running in *.
  destruct (Z.eqb_spec (m_nAddedFrames r) 0) as [Hz|Hz]; [|reflexivity].
  specialize (Hj Hz). destruct (m_thread r); try discriminate; reflexivity.
Qed.

(** An accepted call whose join returns does return, whatever the pacing
    arithmetic gives as the count [n]. *)
Lemma addFrame_paced_accepts pacing t_start t_now r pixels n :
  accepted r pixels ->
  0 <= m_nAddedFrames r < UINT_MODULUS ->
  (m_nAddedFrames r = 0 -> worker_running r = false) ->
  pacing t_now (start_of t_start r) (m_nAddedFrames r) (fps (m_settings r))
  = Some n ->
  0 <= n ->
  n + extra_pass (m_nAddedFrames r) n < SIZE_MODULUS ->
  let total := n + extra_pass (m_nAddedFrames r) n in
  exists r',
    addFrame_paced pacing (S (Z.to_nat total)) t_start t_now r pixels
    = Done (r', total)
    /\ m_frames r' = m_frames r ++ replicas pixels n 0 (Z.to_nat total)
    /\ m_nAddedFrames r' = (m_nAddedFrames r + total) mod UINT_MODULUS
    /\ m_recordStartTime r' = start_of t_start r
    /\ m_thread r' = (if m_nAddedFrames r =? 0 then Running AtOuterTest
                      else m_thread r).
Proof.
  intros (Hrec & Hpipe & Halloc) Hn Hj Hftw Hn0 Hmax total.
  pose proof (addFrame_loop_result pixels n (m_nAddedFrames r) (m_frames r)
                Hn Hn0 Hmax) as Hloop.
  cbv zeta in Hloop. fold total in Hloop.
  unfold addFrame_paced. unfold isPipeOpen in Hpipe.
  rewrite Hrec, Hpipe, Halloc, (addFrame_first_exact t_start r Hj).
  cbn [negb]. unfold start_of in *.
  destruct (m_nAddedFrames r =? 0);
    cbn [m_recordStartTime m_nAddedFrames m_settings m_frames m_thread
         with_startTime with_thread];
    rewrite Hftw, Hloop; eexists; (split; [reflexivity|]);
    repeat split; reflexivity.
Qed.

Lemma addFrame_paced_fuel_indep pacing f1 f2 t_start t_now r pixels o1 o2 :
  addFrame_paced pacing f1 t_start t_now r pixels = Done o1 ->
  addFrame_paced pacing f2 t_start t_now r pixels = Done o2 ->
  o1 = o2.
Proof.
  unfold addFrame_paced.
  destruct (negb (m_isRecording r)); [congruence|].
  destruct (negb (non_null (m_ffmpegPipe r))); [congruence|].
  destruct (negb (isAllocated pixels)); [congruence|].
  destruct (addFrame_first t_start r) as [r1|]; [|discriminate].
  destruct (pacing t_now _ _ _) as [n|]; [|discriminate].
  destruct (addFrame_loop f1 _ _ _) as [s1|] eqn:E1; [|discriminate].
  destruct (addFrame_loop f2 _ _ _) as [s2|] eqn:E2; [|discriminate].
  rewrite (addFrame_loop_fuel_indep _ _ _ _ _ _ _ E1 E2). congruence.
Qed.

(** A call that fails a guard returns 0 at once, whatever the pacing. *)
Lemma addFrame_paced_rejects pacing fuel t_start t_now r pixels :
  m_isRecording r = false \/ isPipeOpen r = false \/ isAllocated pixels = false ->
  addFrame_paced pacing fuel t_start t_now r pixels = Done (r, 0).
Proof.
  unfold addFrame_paced, isPipeOpen. intros [H|[H|H]].
  - now rewrite H.
  - rewrite H. now destruct (m_isRecording r).
  - rewrite H. now destruct (m_isRecording r), (non_null (m_ffmpegPipe r)).
Qed.

Lemma addFrame_paced_pushes pacing fuel t_start t_now r pixels r' c :
  addFrame_paced pacing fuel t_start t_now r pixels = Done (r', c) ->
  exists pushed,
    m_frames r' = m_frames r ++ pushed
    /\ Forall (fun e => pixels_of e = pixels) pushed
    /\ (pushed <> [] -> accepted r pixels).
Proof.
  unfold addFrame_paced, accepted, isPipeOpen.
  destruct (m_isRecording r); cbn [negb];
    [|intros [= <- <-]; exists []; rewrite app_nil_r; now repeat split].
  destruct (non_null (m_ffmpegPipe r)); cbn [negb];
    [|intros [= <- <-]; exists []; rewrite app_nil_r; now repeat split].
  destruct (isAllocated pixels); cbn [negb];
    [|intros [= <- <-]; exists []; rewrite app_nil_r; now repeat split].
  destruct (addFrame_first t_start r) as [r1|] eqn:E1; [|discriminate].
  destruct (pacing t_now _ _ _) as [n|]; [|discriminate].
  destruct (addFrame_loop fuel _ _ _) as [st|] eqn:E; [|discriminate].
  intros [= <- <-]. apply addFrame_loop_pushes in E; [|now left].
  destruct E as (pushed & Hfr & Hall). cbn in Hfr |- *.
  assert (Hq : m_frames r1 = m_frames r).
  { unfold addFrame_first in E1.
    destruct (m_nAddedFrames r =? 0); [|congruence].
    destruct (m_thread r); try discriminate; now injection E1 as <-. }
  exists pushed. rewrite Hfr, Hq. now repeat split.
Qed.

(** ** Claims about [addFrame] *)

(** C1, as the claim states it, fails: [session1] is recording with an open
    pipe, the frame is allocated, the frame counter is 1 and 40 ms after the
    start no frame is due; the call returns 0 and the queue keeps its single
    earlier entry. *)
Lemma addFrame_drops_frame_when_none_due :
  accepted session1 frame2x2
  /\ m_nAddedFrames session1 = 1
  /\ framesToWrite_of (1 # 25) session1 = Some 0
  /\ addFrame 1 0 (1 # 25) session1 frame2x2 = Done (session1, 0).
Proof. repeat split; reflexivity. Qed.

(** C1 (amended): take a call that passes the three guards and the join of
    line 157 (any call but the first of a session, and the first one when
    no worker of an earlier session is still running), and let the pacing
    arithmetic, however it rounds, give a count [n] below 2^64 - 1.  The call
    returns, and the count it returns is the number of entries it has
    appended to the queue.  That number is at least one when the call is the
    first of the session or when [n >= 1]; a later frame with [n = 0] is
    dropped: nothing is queued and the call returns 0. *)
Theorem addFrame_count_is_entries_pushed pacing t_start t_now r pixels n :
  accepted r pixels ->
  0 <= m_nAddedFrames r < UINT_MODULUS ->
  (m_nAddedFrames r = 0 -> worker_running r = false) ->
  pacing t_now (start_of t_start r) (m_nAddedFrames r) (fps (m_settings r))
  = Some n ->
  0 <= n < SIZE_MODULUS - 1 ->
  exists r' pushed,
    (exists fuel,
        addFrame_paced pacing fuel t_start t_now r pixels
        = Done (r', Z.of_nat (List.length pushed)))
    /\ (forall fuel r'' c,
           addFrame_paced pacing fuel t_start t_now r pixels = Done (r'', c) ->
           r'' = r' /\ c = Z.of_nat (List.length pushed))
    /\ m_frames r' = m_frames r ++ pushed
    /\ (m_nAddedFrames r = 0 \/ 1 <= n -> pushed <> [])
    /\ (m_nAddedFrames r <> 0 -> n = 0 -> pushed = []).
Proof.
  intros Hacc Hn Hj Hftw [Hn0 Hmax].
  assert (Hex : 0 <= extra_pass (m_nAddedFrames r) n <= 1)
    by (unfold extra_pass; destruct (_ =? 0); lia).
  destruct (addFrame_paced_accepts pacing t_start t_now r pixels n
              Hacc Hn Hj Hftw Hn0) as (r' & Hrun & Hfr & _); [lia|].
  set (total := n + extra_pass (m_nAddedFrames r) n) in *.
  exists r', (replicas pixels n 0 (Z.to_nat total)).
  rewrite replicas_length, Z2Nat.id by lia.
  split; [eauto|]. split; [|split; [exact Hfr|split]].
  - intros fuel r'' c H.
    pose proof (addFrame_paced_fuel_indep _ _ _ _ _ _ _ _ _ H Hrun) as E.
    now injection E as -> ->.
  - intros Hpos Hnil. apply (f_equal (@List.length _)) in Hnil.
    rewrite replicas_length in Hnil. cbn [List.length] in Hnil.
    assert (total = 0) by lia. subst total.
    destruct Hpos as [Hz|Hpos]; [|lia].
    unfold extra_pass in *. rewrite Hz in *.
    replace n with 0 in * by lia. cbn in *. lia.
  - intros Hnz -> . subst total. unfold extra_pass.
    rewrite Z.add_0_r, Z.mod_small by lia.
    destruct (Z.eqb_spec (m_nAddedFrames r) 0); [contradiction|].
    reflexivity.
Qed.

Lemma addFrame_count_is_entries_pushed_witness :
  exists r' pushed,
    (exists fuel,
        addFrame_paced exact_pacing fuel 0 (3 # 20) session1 frame2x2
        = Done (r', Z.of_nat (List.length pushed)))
    /\ (forall fuel r'' c,
           addFrame_paced exact_pacing fuel 0 (3 # 20) session1 frame2x2
           = Done (r'', c) ->
           r'' = r' /\ c = Z.of_nat (List.length pushed))
    /\ m_frames r' = m_frames session1 ++ pushed
    /\ (m_nAddedFrames session1 = 0 \/ 1 <= 3 -> pushed <> [])
    /\ (m_nAddedFrames session1 <> 0 -> 3 = 0 -> pushed = []).
Proof.
  apply (addFrame_count_is_entries_pushed exact_pacing 0 (3 # 20) session1
           frame2x2 3).
  - repeat split; reflexivity.
  - change (0 <= 1 < 4294967296). lia.
  - cbn. discriminate.
  - reflexivity.
  - rewrite SIZE_MODULUS_eq. lia.
Defined.

(** An unsigned value that is a multiple of 2^32 is not the largest
    [size_t]. *)
Lemma multiple_of_uint_not_max n :
  0 <= n < SIZE_MODULUS -> n mod UINT_MODULUS = 0 -> n + 1 < SIZE_MODULUS.
Proof.
  intros Hn Hm. rewrite SIZE_MODULUS_eq in *.
  destruct (Z.eq_dec n 18446744073709551615) as [->|]; [|lia].
  vm_compute in Hm. discriminate.
Qed.

(** When no worker is running, so that the join of line 157 returns, the
    first frame of a session (frame counter zero) is queued.  The call
    returns a count of at least 1, which is the number of entries it
    appended; when the pacing delta is zero or negative the count is
    exactly 1. *)
Lemma addFrame_first_frame_is_queued t_start t_now r pixels n :
  accepted r pixels ->
  m_nAddedFrames r = 0 ->
  worker_running r = false ->
  framesToWrite t_now t_start (getRecordedDuration r) (fps (m_settings r))
  = Some n ->
  exists fuel r' count pushed,
    addFrame fuel t_start t_now r pixels = Done (r', count)
    /\ 1 <= count
    /\ m_frames r' = m_frames r ++ pushed
    /\ Z.of_nat (List.length pushed) = count
    /\ ((0 < fps (m_settings r))%Q -> (t_now - t_start <= 0)%Q -> count = 1).
Proof.
  intros Hacc Hz Hj Hftw.
  assert (Hn : 0 <= n < SIZE_MODULUS).
  { unfold framesToWrite in Hftw. apply to_size_t_Some in Hftw. lia. }
  assert (Hex : extra_pass (m_nAddedFrames r) n = if n =? 0 then 1 else
                  extra_pass 0 n)
    by (rewrite Hz; destruct (Z.eqb_spec n 0) as [->|]; reflexivity).
  assert (Hmax : n + extra_pass (m_nAddedFrames r) n < SIZE_MODULUS).
  { rewrite Hz. unfold extra_pass. rewrite Z.add_0_l.
    destruct (Z.eqb_spec (n mod UINT_MODULUS) 0) as [Hm|];
      [now apply multiple_of_uint_not_max | lia]. }
  destruct (addFrame_accepts t_start t_now r pixels n Hacc) as (r' & Hrun & Hfr & _);
    try assumption.
  - rewrite Hz, UINT_MODULUS_eq. lia.
  - intros _. exact Hj.
  - unfold start_of. now rewrite Hz.
  - set (total := n + extra_pass (m_nAddedFrames r) n) in *.
    assert (Htot : 1 <= total).
    { subst total. rewrite Hex. destruct (Z.eqb_spec n 0); [lia|].
      unfold extra_pass. destruct (_ =? 0); lia. }
    exists (S (Z.to_nat total)), r', total,
      (replicas pixels n 0 (Z.to_nat total)).
    rewrite replicas_length, Z2Nat.id by lia.
    repeat split; try assumption.
    intros Hfps Hdelta. subst total.
    assert (n = 0); [|subst n; rewrite Hz; reflexivity].
    unfold framesToWrite in Hftw. apply to_size_t_Some in Hftw as [Hv _].
    assert (Hle : ((t_now - t_start - getRecordedDuration r)
                   * fps (m_settings r) <= 0)%Q).
    { unfold getRecordedDuration. rewrite Hz.
      setoid_replace (inject_Z 0 / fps (m_settings r))%Q with 0%Q
        by (unfold Qdiv; apply Qmult_0_l).
      setoid_replace (t_now - t_start - 0)%Q with (t_now - t_start)%Q by ring.
      apply Qle_trans with (0 * fps (m_settings r))%Q;
        [|rewrite Qmult_0_l; apply Qle_refl].
      apply Qmult_le_compat_r; [assumption | now apply Qlt_le_weak]. }
    pose proof (Qtruncate_resp_le _ _ Hle) as Ht.
    change (Qtruncate 0) with 0 in Ht. lia.
Qed.

Lemma addFrame_first_frame_is_queued_witness :
  exists fuel r' count pushed,
    addFrame fuel 0 0 session0 frame2x2 = Done (r', count)
    /\ 1 <= count
    /\ m_frames r' = m_frames session0 ++ pushed
    /\ Z.of_nat (List.length pushed) = count
    /\ ((0 < fps (m_settings session0))%Q -> (0 - 0 <= 0)%Q -> count = 1).
Proof.
  apply (addFrame_first_frame_is_queued 0 0 session0 frame2x2 0).
  - repeat split; reflexivity.
  - reflexivity.
  - reflexivity.
  - reflexivity.
Defined.


(** C2, the failing case: on the first frame of a session with no frame due
    (the clock has not advanced by a frame duration since the start time was
    taken two statements earlier) the test [written == framesToWrite - 1]
    compares 0 with the wrapped value 2^64 - 1, so the single entry queued is
    a view and the owning copy [pixPtr] is never queued. *)
Theorem addFrame_first_frame_queues_view_only t_start t_now r pixels :
  accepted r pixels ->
  m_nAddedFrames r = 0 ->
  worker_running r = false ->
  framesToWrite t_now t_start (getRecordedDuration r) (fps (m_settings r))
  = Some 0 ->
  exists r',
    addFrame 2 t_start t_now r pixels = Done (r', 1)
    /\ m_frames r' = m_frames r ++ [ExternalView pixels].
Proof.
  intros Hacc Hz Hj Hftw.
  destruct (addFrame_accepts t_start t_now r pixels 0 Hacc)
    as (r' & Hrun & Hfr & _).
  - rewrite Hz, UINT_MODULUS_eq. lia.
  - intros _. exact Hj.
  - unfold start_of. now rewrite Hz.
  - rewrite Hz. reflexivity.
  - rewrite Hz in Hrun, Hfr. exists r'. split; assumption.
Qed.

Lemma addFrame_first_frame_queues_view_only_witness :
  exists r',
    addFrame 2 0 0 session0 frame2x2 = Done (r', 1)
    /\ m_frames r' = m_frames session0 ++ [ExternalView frame2x2].
Proof.
  apply (addFrame_first_frame_queues_view_only 0 0 session0 frame2x2).
  - repeat split; reflexivity.
  - reflexivity.
  - reflexivity.
  - reflexivity.
Defined.

(** C4, as the claim states it, fails: the session is configured for
    640x480, the frame is 2x2, and [addFrame] queues it. *)
Lemma addFrame_accepts_other_dimensions :
  videoResolution (m_settings session0) = (640, 480)
  /\ (getWidth frame2x2, getHeight frame2x2) = (2, 2)
  /\ exists r',
       addFrame 2 0 0 session0 frame2x2 = Done (r', 1)
       /\ map pixels_of (m_frames r') = [frame2x2].
Proof.
  split; [reflexivity|]. split; [reflexivity|].
  eexists. split; reflexivity.
Qed.

(** C4 (amended): [addFrame] refuses a frame whose pixel data is not
    allocated: whatever the recorder, the clock readings and the pacing
    arithmetic are, the call returns 0 and leaves the recorder as it was.
    Every queue entry that a call adds carries the submitted, allocated
    pixels.  The dimensions of the frame are not compared with the
    configured resolution. *)
Theorem addFrame_queues_only_allocated pacing fuel t_start t_now r pixels :
  (isAllocated pixels = false ->
   addFrame_paced pacing fuel t_start t_now r pixels = Done (r, 0))
  /\ (forall r' c,
         addFrame_paced pacing fuel t_start t_now r pixels = Done (r', c) ->
         exists pushed,
           m_frames r' = m_frames r ++ pushed
           /\ Forall (fun e => pixels_of e = pixels
                               /\ isAllocated (pixels_of e) = true) pushed).
Proof.
  split.
  - intros Hna. apply addFrame_paced_rejects. auto.
  - intros r' c H.
    destruct (addFrame_paced_pushes _ _ _ _ _ _ _ _ H)
      as (pushed & Hfr & Hall & Hacc).
    exists pushed. split; [exact Hfr|].
    destruct pushed as [|e pushed]; [constructor|].
    destruct Hacc as (_ & _ & Halloc); [discriminate|].
    revert Hall. apply Forall_impl. intros a ->. now split.
Qed.

Example session1_after_150ms_queue :
  m_frames session1_after_150ms
  = [ExternalView frame2x2; ExternalView frame2x2; ExternalView frame2x2;
     OwnedCopy frame2x2].
Proof. reflexivity. Qed.

Lemma addFrame_queues_only_allocated_witness :
  addFrame_paced exact_pacing 0 0 0 session1 frame_unallocated
  = Done (session1, 0)
  /\ exists pushed,
       m_frames session1_after_150ms = m_frames session1 ++ pushed
       /\ Forall (fun e => pixels_of e = frame2x2
                           /\ isAllocated (pixels_of e) = true) pushed.
Proof.
  split.
  - apply (proj1 (addFrame_queues_only_allocated exact_pacing 0 0 0 session1
                    frame_unallocated)).
    reflexivity.
  - apply (proj2 (addFrame_queues_only_allocated exact_pacing 4 0 (3 # 20)
                    session1 frame2x2) session1_after_150ms 3).
    vm_compute. reflexivity.
Defined.

(** ** The pacing count is monotone *)

(** C8: for a fixed start time, recorded duration and positive frame rate,
    the number of frames due does not decrease when the clock reading grows.
    It is defined at both readings as soon as [delta * fps] lies above -1 at
    the earlier and below 2^64 at the later one. *)
Theorem framesToWrite_monotone (now1 now2 startTime recordedDuration fps_ : Q) :
  (0 < fps_)%Q -> (now1 <= now2)%Q ->
  (forall n1 n2,
      framesToWrite now1 startTime recordedDuration fps_ = Some n1 ->
      framesToWrite now2 startTime recordedDuration fps_ = Some n2 ->
      n1 <= n2)
  /\ ((-1 < ((now1 - startTime) - recordedDuration) * fps_)%Q ->
      (((now2 - startTime) - recordedDuration) * fps_
       < inject_Z SIZE_MODULUS)%Q ->
      exists n1 n2,
        framesToWrite now1 startTime recordedDuration fps_ = Some n1
        /\ framesToWrite now2 startTime recordedDuration fps_ = Some n2).
Proof.
  intros Hfps Hnow.
  pose proof (scaled_delta_le now1 now2 startTime recordedDuration fps_
                Hfps Hnow) as Hle.
  split.
  - intros n1 n2 H1 H2. unfold framesToWrite in *.
    apply to_size_t_Some in H1 as [-> _], H2 as [-> _].
    now apply Qtruncate_resp_le.
  - intros Hlo Hhi. unfold framesToWrite.
    do 2 eexists. split; apply to_size_t_defined.
    + exact Hlo.
    + eapply Qle_lt_trans; eassumption.
    + eapply Qlt_le_trans; eassumption.
    + exact Hhi.
Qed.

Lemma framesToWrite_monotone_witness :
  (forall n1 n2,
      framesToWrite (1 # 30) 0 (1 # 30) (30 # 1) = Some n1 ->
      framesToWrite (1 # 10) 0 (1 # 30) (30 # 1) = Some n2 ->
      n1 <= n2)
  /\ ((-1 < (((1 # 30) - 0) - (1 # 30)) * (30 # 1))%Q ->
      ((((1 # 10) - 0) - (1 # 30)) * (30 # 1) < inject_Z SIZE_MODULUS)%Q ->
      exists n1 n2,
        framesToWrite (1 # 30) 0 (1 # 30) (30 # 1) = Some n1
        /\ framesToWrite (1 # 10) 0 (1 # 30) (30 # 1) = Some n2).
Proof.
  apply (framesToWrite_monotone (1 # 30) (1 # 10) 0 (1 # 30) (30 # 1));
    reflexivity || (intro H; discriminate H).
Defined.

Example framesToWrite_scenario :
  framesToWrite (1 # 30) 0 (1 # 30) (30 # 1) = Some 0
  /\ framesToWrite (1 # 10) 0 (1 # 30) (30 # 1) = Some 2.
Proof. split; reflexivity. Qed.

(** ** Claims about [start] *)

Lemma clearQueue_loop_nil q : clearQueue_loop q = [].
Proof. induction q as [|e q IH]; [reflexivity | exact IH]. Qed.

(** [start] never touches the worker thread. *)
Lemma start_thread fileExists popen_ok r settings force :
  m_thread (fst (start fileExists popen_ok r settings force)) = m_thread r.
Proof.
  unfold start. destruct (m_isRecording r); [reflexivity|].
  destruct (m_isReady r), force; cbn [fst]; try reflexivity;
    destruct (empty (outputPath settings)); try reflexivity;
    match goal with
    | |- context [if ?c then (_, false) else _] => destruct c; try reflexivity
    end;
    destruct popen_ok; cbn;
    repeat match goal with
           | |- context [if ?c then _ else _] => destruct c; cbn
           end; reflexivity.
Qed.

(** C9: [start] on a recorder that is recording returns false and leaves
    every member as it was. *)
Theorem start_while_recording_changes_nothing
        fileExists popen_ok r settings forceIfNotReady :
  m_isRecording r = true ->
  start fileExists popen_ok r settings forceIfNotReady = (r, false).
Proof. intros H. unfold start. now rewrite H. Qed.

Lemma start_while_recording_changes_nothing_witness :
  start no_files true session1 defaultSettings true = (session1, false).
Proof.
  apply (start_while_recording_changes_nothing
           no_files true session1 defaultSettings true).
  reflexivity.
Defined.

(** C10: a forced [start] on a recorder that is stopped but not ready, with
    an empty output path, returns false after it has set the quit signal and
    emptied the queue; whatever was queued is gone although no recording
    started. *)
Theorem start_forced_then_rejected_loses_queue
        fileExists popen_ok r settings :
  m_isRecording r = false ->
  m_isReady r = false ->
  outputPath settings = EmptyString ->
  exists r',
    start fileExists popen_ok r settings true = (r', false)
    /\ m_frames r' = []
    /\ m_shouldQuitProcessing r' = true
    /\ m_isRecording r' = false
    /\ (m_frames r <> [] -> r' <> r).
Proof.
  intros Hrec Hready Hpath. unfold start. rewrite Hrec, Hready, Hpath.
  cbn [empty]. eexists. split; [reflexivity|].
  cbn. rewrite clearQueue_loop_nil. repeat split; try assumption.
  intros Hq E. apply Hq. rewrite <- E. cbn. apply clearQueue_loop_nil.
Qed.

Lemma start_forced_then_rejected_loses_queue_witness :
  exists r',
    start no_files true draining1 settings_without_path true = (r', false)
    /\ m_frames r' = []
    /\ m_shouldQuitProcessing r' = true
    /\ m_isRecording r' = false
    /\ (m_frames draining1 <> [] -> r' <> draining1).
Proof.
  apply (start_forced_then_rejected_loses_queue
           no_files true draining1 settings_without_path);
    reflexivity.
Defined.

(** The first half of C3: an empty output path makes [start] return false,
    and a recorder that was not recording is not recording afterwards. *)
Lemma start_empty_path fileExists popen_ok r settings force :
  outputPath settings = EmptyString ->
  snd (start fileExists popen_ok r settings force) = false
  /\ m_isRecording (fst (start fileExists popen_ok r settings force))
     = m_isRecording r.
Proof.
  intros Hpath. unfold start. rewrite Hpath. cbn [empty].
  destruct (m_isRecording r) eqn:Hrec; [now split|].
  destruct (m_isReady r), force; cbn; now split.
Qed.

(** The test of line 63 reads [m_settings], which still holds the settings of
    the previous call: the path and the overwrite flag of [settings] play no
    part in it. *)
Lemma start_checks_previous_settings fileExists r settings :
  m_isRecording r = false ->
  m_isReady r = true ->
  empty (outputPath settings) = false ->
  (fileExists (outputPath (m_settings r))
   && negb (allowOverwrite (m_settings r))) = false ->
  snd (start fileExists true r settings false) = true.
Proof.
  intros Hrec Hready Hpath Hold. unfold start.
  rewrite Hrec, Hready, Hpath, Hold. cbn.
  repeat match goal with
         | |- context [if ?c then _ else _] => destruct c; cbn
         end; reflexivity.
Qed.

(** C3, the failing case: the settings passed to [start] name the existing
    file take1.mp4 and forbid overwriting, the recorder is fresh, and [start]
    opens the pipe, returns true and is recording. *)
Theorem start_records_over_existing_file :
  only_take1 (outputPath settings_keep_existing) = true
  /\ allowOverwrite settings_keep_existing = false
  /\ exists r',
       start only_take1 true (Recorder_new false 0) settings_keep_existing false
       = (r', true)
       /\ m_isRecording r' = true
       /\ m_settings r' = settings_keep_existing.
Proof.
  split; [reflexivity|]. split; [reflexivity|].
  eexists. split; [reflexivity|]. split; reflexivity.
Qed.

(** ** The worker *)

(** While the worker runs, no call of the caller moves it: [start] and [stop]
    leave [m_thread] alone and the first [addFrame] of a session waits in
    [join]. *)
Lemma caller_step_keeps_worker fileExists c r r' pc :
  m_thread r = Running pc ->
  caller_step fileExists c r = Some r' ->
  m_thread r' = Running pc.
Proof.
  intros Hpc. destruct c as [settings force popen_ok| |fuel t_start t_now pixels];
    cbn [caller_step].
  - intros [= <-]. now rewrite start_thread.
  - intros [= <-]. exact Hpc.
  - unfold addFrame.
    destruct (negb (m_isRecording r)); [now intros [= <-]|].
    destruct (negb (non_null (m_ffmpegPipe r))); [now intros [= <-]|].
    destruct (negb (isAllocated pixels)); [now intros [= <-]|].
    unfold addFrame_first. rewrite Hpc.
    destruct (m_nAddedFrames r =? 0); [discriminate|].
    destruct (framesToWrite_of t_now r); [|discriminate].
    destruct (addFrame_loop _ _ _ _); [|discriminate].
    intros [= <-]. exact Hpc.
Qed.

Lemma run_caller_keeps_worker fileExists cs : forall r r' pc,
  m_thread r = Running pc ->
  run_caller fileExists cs r = Some r' ->
  m_thread r' = Running pc.
Proof.
  induction cs as [|c cs IH]; intros r r' pc Hpc; cbn [run_caller].
  - now intros [= <-].
  - destruct (caller_step fileExists c r) as [r1|] eqn:E; [|discriminate].
    apply IH. eapply caller_step_keeps_worker; eassumption.
Qed.

(** The last step of the worker: [closePipe]. *)
Lemma drain_step_close i r :
  m_thread r = Running AtClosePipe ->
  exists r',
    drain_step i r = Some (r', [])
    /\ m_thread r' = Returned
    /\ m_ffmpegPipe r' = nullptr
    /\ m_isReady r' = true
    /\ m_frames r' = m_frames r.
Proof.
  intros Hpc. unfold drain_step. rewrite Hpc.
  eexists. split; [reflexivity|]. now repeat split.
Qed.

(** The test of line 236 fires whenever [fwrite] reports another length than
    the one requested or [ferror] is set, and also when there is no pipe. *)
Lemma write_failed_true pipe i len :
  di_fwrite i <> len \/ di_ferror i = true ->
  write_failed (if non_null pipe then di_fwrite i else 0) len (di_ferror i)
  = true.
Proof.
  intros H. unfold write_failed. destruct pipe; cbn [non_null].
  - reflexivity.
  - destruct H as [H| ->]; [|now rewrite orb_true_r].
    destruct (Z.eqb_spec (di_fwrite i) len); [contradiction|].
    now rewrite orb_true_r.
Qed.

(** C5: the worker is in the body of its inner loop, a frame duration has
    passed and the queue holds [e :: rest].  If [fwrite] reports another
    length than [dataLength] or [ferror] is set, the step that pops [e] leaves
    both loops for [closePipe] with [rest] still queued.  Whatever the caller
    does in between, the next and last step of the worker writes nothing,
    closes the pipe and sets [m_isReady], and leaves the queue as it finds
    it. *)
Theorem write_failure_ends_drain fileExists i r lastFrameTime e rest :
  m_thread r = Running (InBody lastFrameTime) ->
  m_frames r = e :: rest ->
  Qle_bool (1 / fps (m_settings r)) (di_now i - lastFrameTime) = true ->
  di_fwrite i <> dataLength r \/ di_ferror i = true ->
  exists r1 handed,
    drain_step i r = Some (r1, handed)
    /\ m_thread r1 = Running AtClosePipe
    /\ m_frames r1 = rest
    /\ (handed = [e] \/ handed = [])
    /\ forall cs r2 i',
         run_caller fileExists cs r1 = Some r2 ->
         exists r3,
           drain_step i' r2 = Some (r3, [])
           /\ m_thread r3 = Returned
           /\ m_ffmpegPipe r3 = nullptr
           /\ m_isReady r3 = true
           /\ m_frames r3 = m_frames r2
           /\ drain_step i' r3 = None.
Proof.
  intros Hpc Hq Htime Hfail.
  unfold drain_step at 1. rewrite Hpc, Htime, Hq. cbn [LockFreeQueue.consume].
  change (m_ffmpegPipe (with_frames r rest)) with (m_ffmpegPipe r).
  change (dataLength (with_frames r rest)) with (dataLength r).
  rewrite (write_failed_true (m_ffmpegPipe r) i (dataLength r) Hfail).
  do 2 eexists. split; [reflexivity|].
  split; [reflexivity|]. split; [reflexivity|].
  split; [destruct (m_ffmpegPipe r); cbn; auto|].
  intros cs r2 i' Hrun.
  assert (Hpc2 : m_thread r2 = Running AtClosePipe)
    by (eapply run_caller_keeps_worker; [|exact Hrun]; reflexivity).
  destruct (drain_step_close i' r2 Hpc2) as (r3 & Hs & Ht & Hp & Hr & Hf).
  exists r3. repeat split; try assumption.
  unfold drain_step. now rewrite Ht.
Qed.

Lemma write_failure_ends_drain_witness :
  exists r1 handed,
    drain_step short_write session1_in_body = Some (r1, handed)
    /\ m_thread r1 = Running AtClosePipe
    /\ m_frames r1 = []
    /\ (handed = [ExternalView frame2x2] \/ handed = [])
    /\ forall cs r2 i',
         run_caller no_files cs r1 = Some r2 ->
         exists r3,
           drain_step i' r2 = Some (r3, [])
           /\ m_thread r3 = Returned
           /\ m_ffmpegPipe r3 = nullptr
           /\ m_isReady r3 = true
           /\ m_frames r3 = m_frames r2
           /\ drain_step i' r3 = None.
Proof.
  apply (write_failure_ends_drain no_files short_write session1_in_body 0
           (ExternalView frame2x2) []).
  - reflexivity.
  - reflexivity.
  - reflexivity.
  - left. vm_compute. discriminate.
Defined.

(** C7, the failing case.  [stop] is one assignment; but when it runs before
    the worker has evaluated the condition of its outer loop, the worker
    skips both loops: for every clock reading and every behaviour of the
    pipe, the frame queued before [stop] is still in the queue when the pipe
    is closed, and nothing was written. *)
Theorem stop_before_worker_runs_strands_frame (i1 i2 : DrainInput) :
  (forall r, stop r = with_isRecording r false)
  /\ exists w,
       run no_files
           [ Caller (CallStart defaultSettings false true);
             Caller (CallAddFrame 2 0 0 frame2x2);
             Caller CallStop;
             Worker i1;
             Worker i2 ]
           (mkWorld (Recorder_new false 0) [])
       = Some w
       /\ sink w = []
       /\ m_frames (recorder w) = [ExternalView frame2x2]
       /\ m_ffmpegPipe (recorder w) = nullptr
       /\ m_isReady (recorder w) = true
       /\ m_thread (recorder w) = Returned.
Proof.
  split; [reflexivity|].
  eexists. split; [vm_compute; reflexivity|]. now repeat split.
Qed.

(** The test of the inner loop lets the worker in while frames are queued
    and no quit was signalled. *)
Lemma drain_step_inner_test i r last e q :
  m_thread r = Running (AtInnerTest last) ->
  m_frames r = e :: q ->
  m_shouldQuitProcessing r = false ->
  drain_step i r = Some (with_thread r (Running (InBody last)), []).
Proof.
  intros Hpc Hq Hquit. unfold drain_step. rewrite Hpc, Hquit.
  unfold numFramesInQueue, LockFreeQueue.size. rewrite Hq.
  replace (0 <? Z.of_nat (List.length (e :: q))) with true; [reflexivity|].
  symmetry. apply Z.ltb_lt. cbn [List.length]. lia.
Qed.

(** A body that finds a frame duration elapsed and a pipe that takes the
    whole frame pops the oldest entry and writes it. *)
Lemma drain_step_body_written i r last e q :
  m_thread r = Running (InBody last) ->
  m_frames r = e :: q ->
  m_ffmpegPipe r = ffmpegStdin ->
  0 < dataLength r ->
  Qle_bool (1 / fps (m_settings r)) (di_now i - last) = true ->
  di_fwrite i = dataLength r ->
  di_ferror i = false ->
  drain_step i r
  = Some (with_thread (with_frames r q) (Running (AtInnerTest (di_after i))),
          [e]).
Proof.
  intros Hpc Hq Hpipe Hlen Htime Hw Herr.
  unfold drain_step. rewrite Hpc, Htime, Hq. cbn [LockFreeQueue.consume].
  change (m_ffmpegPipe (with_frames r q)) with (m_ffmpegPipe r).
  change (dataLength (with_frames r q)) with (dataLength r).
  rewrite Hpipe. cbn [non_null]. rewrite Hw, Herr.
  unfold write_failed. rewrite Z.eqb_refl.
  replace (dataLength r <=? 0) with false; [reflexivity|].
  symmetry. apply Z.leb_gt. exact Hlen.
Qed.

(** What C7 asks for does hold once the worker is inside its inner loop: that
    loop does not read [m_isRecording], so with no quit signal and no write
    failure it writes the whole queue, in order, whether or not [stop] has
    been called. *)
Lemma inner_loop_writes_whole_queue fileExists q : forall inputs r last written,
  m_thread r = Running (AtInnerTest last) ->
  m_frames r = q ->
  m_shouldQuitProcessing r = false ->
  m_ffmpegPipe r = ffmpegStdin ->
  0 < dataLength r ->
  drains (1 / fps (m_settings r)) (dataLength r) last q inputs ->
  exists r' last',
    run fileExists (map Worker inputs) (mkWorld r written)
    = Some (mkWorld r' (written ++ q))
    /\ r' = with_thread (with_frames r []) (Running (AtInnerTest last')).
Proof.
  induction q as [|e q IH]; intros inputs r last written Hpc Hq Hquit Hpipe
                                   Hlen Hd.
  - destruct inputs; [|contradiction]. cbn [map run].
    exists r, last. rewrite app_nil_r. split; [reflexivity|].
    destruct r; cbn in *; subst; reflexivity.
  - destruct inputs as [|test [|body inputs]]; try contradiction.
    destruct Hd as (Htime & Hw & Herr & Hd).
    cbn [map run step recorder sink].
    rewrite (drain_step_inner_test test r last e q Hpc Hq Hquit).
    cbn [option_map recorder sink fst snd].
    rewrite (drain_step_body_written body _ last e q);
      try assumption; try reflexivity.
    cbn [option_map recorder sink fst snd]. rewrite app_nil_r.
    destruct (IH inputs
                 (with_thread
                    (with_frames (with_thread r (Running (InBody last))) q)
                    (Running (AtInnerTest (di_after body))))
                 (di_after body) (written ++ [e]))
      as (r' & last' & Hrun & Hr');
      [reflexivity|reflexivity|exact Hquit|exact Hpipe|exact Hlen|exact Hd|].
    rewrite Hrun. exists r', last'.
    rewrite <- app_assoc. split; [reflexivity|].
    rewrite Hr'. reflexivity.
Qed.

(** * Further properties *)

(** ** [start]: when it succeeds and what it leaves *)

Lemma start_unfold fileExists popen_ok r settings force :
  start fileExists popen_ok r settings force
  = if m_isRecording r then (r, false)
    else if m_isReady r || force
    then let r1 := if m_isReady r then r
                   else clearQueue (with_shouldQuit r true) in
         if empty (outputPath settings) then (r1, false)
         else if refuses_overwrite fileExists r then (r1, false)
         else adopt popen_ok r1 settings
    else (r, false).
Proof.
  unfold start, refuses_overwrite.
  destruct (m_isRecording r); [reflexivity|].
  destruct (m_isReady r), force; reflexivity.
Qed.

Lemma adopt_state popen_ok r1 settings :
  adopt popen_ok r1 settings
  = ({| m_settings             := adopted settings;
        m_isRecording          := popen_ok || m_isRecording r1;
        m_isReady              := negb popen_ok;
        m_shouldQuitProcessing := false;
        m_ffmpegPipe           := if popen_ok then ffmpegStdin else nullptr;
        m_recordStartTime      := m_recordStartTime r1;
        m_nAddedFrames         := 0;
        m_thread               := m_thread r1;
        m_frames               := m_frames r1 |},
     popen_ok || m_isRecording r1).
Proof.
  unfold adopt, adopted, isPipeOpen.
  destruct popen_ok, (empty (ffmpegPath settings)) eqn:E;
    cbn; rewrite ?E; cbn;
    destruct (non_null (m_ffmpegPipe r1)); reflexivity.
Qed.

Lemma adopted_ffmpegPath settings : empty (ffmpegPath (adopted settings)) = false.
Proof.
  unfold adopted. destruct (empty (ffmpegPath settings)) eqn:E;
    [reflexivity | exact E].
Qed.

Lemma start_true_cases fileExists popen_ok r settings force :
  snd (start fileExists popen_ok r settings force) = true
  <-> m_isRecording r = false
      /\ (m_isReady r = true \/ force = true)
      /\ empty (outputPath settings) = false
      /\ refuses_overwrite fileExists r = false
      /\ popen_ok = true.
Proof.
  rewrite start_unfold.
  destruct (m_isRecording r) eqn:Hrec;
    [split; [discriminate | intros (H & _); discriminate]|].
  destruct (m_isReady r) eqn:Hready, force; cbn [orb];
    try (split; [discriminate | intros (_ & [H|H] & _); discriminate]);
    cbv zeta;
    (destruct (empty (outputPath settings));
     [split; [discriminate | intros (_ & _ & H & _); discriminate]|]);
    (destruct (refuses_overwrite fileExists r);
     [split; [discriminate | intros (_ & _ & _ & H & _); discriminate]|]);
    rewrite adopt_state; cbn [snd m_isRecording clearQueue with_shouldQuit
                              with_frames];
    rewrite ?Hrec, orb_false_r;
    (split; [intros ->; repeat split; auto | intros (_ & _ & _ & _ & H); exact H]).
Qed.

(** X1: [start] returns true exactly when the recorder is not recording, is
    ready or is forced, the new output path is not empty, the stored settings
    do not name an existing file with overwriting off, and [popen] gives a
    stream. *)
Theorem start_succeeds_iff fileExists popen_ok r settings force :
  snd (start fileExists popen_ok r settings force) = true
  <-> m_isRecording r = false
      /\ (m_isReady r = true \/ force = true)
      /\ empty (outputPath settings) = false
      /\ refuses_overwrite fileExists r = false
      /\ popen_ok = true.
Proof. apply start_true_cases. Qed.

(** X2: after a [start] that returned true the recorder is recording with an
    open pipe, is not ready, has its frame counter at zero and its quit
    signal cleared, and holds the new settings with a non-empty executable.
    The worker thread and the start time are as before, and so is the queue
    unless the call had to cancel a recording that was still draining. *)
Theorem start_success_state fileExists popen_ok r settings force :
  snd (start fileExists popen_ok r settings force) = true ->
  let r' := fst (start fileExists popen_ok r settings force) in
  m_isRecording r' = true
  /\ isPipeOpen r' = true
  /\ m_isReady r' = false
  /\ m_nAddedFrames r' = 0
  /\ m_shouldQuitProcessing r' = false
  /\ m_settings r' = adopted settings
  /\ empty (ffmpegPath (m_settings r')) = false
  /\ m_thread r' = m_thread r
  /\ m_recordStartTime r' = m_recordStartTime r
  /\ m_frames r' = (if m_isReady r then m_frames r else []).
Proof.
  intros H.
  pose proof (proj1 (start_true_cases _ _ _ _ _) H)
    as (Hrec & Hrf & Hpath & Hover & ->).
  cbv zeta. rewrite start_unfold, Hrec, Hpath, Hover.
  destruct (m_isReady r) eqn:Hready; cbn [orb].
  - rewrite adopt_state. cbn. rewrite adopted_ffmpegPath. now repeat split.
  - destruct Hrf as [Hrf| ->]; [discriminate|].
    rewrite adopt_state. cbn. rewrite adopted_ffmpegPath, clearQueue_loop_nil.
    now repeat split.
Qed.

Lemma start_success_state_witness :
  let r' := fst (start no_files true draining1 defaultSettings true) in
  m_isRecording r' = true
  /\ isPipeOpen r' = true
  /\ m_isReady r' = false
  /\ m_nAddedFrames r' = 0
  /\ m_shouldQuitProcessing r' = false
  /\ m_settings r' = adopted defaultSettings
  /\ empty (ffmpegPath (m_settings r')) = false
  /\ m_thread r' = m_thread draining1
  /\ m_recordStartTime r' = m_recordStartTime draining1
  /\ m_frames r' = (if m_isReady draining1 then m_frames draining1 else []).
Proof.
  apply (start_success_state no_files true draining1 defaultSettings true).
  reflexivity.
Defined.

(** X3: a [start] that passes its checks and then fails to open the pipe
    returns false and is not recording, but it is not without effect: the
    settings are replaced, the frame counter and the quit signal are reset,
    and the pipe of a recording that was still draining has been closed, so
    that the recorder reports ready. *)
Theorem start_popen_failure_state fileExists r settings force :
  m_isRecording r = false ->
  m_isReady r = true \/ force = true ->
  empty (outputPath settings) = false ->
  refuses_overwrite fileExists r = false ->
  exists r',
    start fileExists false r settings force = (r', false)
    /\ m_isRecording r' = false
    /\ m_ffmpegPipe r' = nullptr
    /\ m_isReady r' = true
    /\ m_settings r' = adopted settings
    /\ m_nAddedFrames r' = 0
    /\ m_shouldQuitProcessing r' = false
    /\ m_thread r' = m_thread r.
Proof.
  intros Hrec Hrf Hpath Hover.
  rewrite start_unfold, Hrec, Hpath, Hover.
  replace (m_isReady r || force) with true
    by (destruct Hrf as [->| ->]; [reflexivity | now rewrite orb_true_r]).
  cbv zeta. rewrite adopt_state. cbn [orb negb].
  destruct (m_isReady r); cbn; rewrite Hrec; eexists;
    (split; [reflexivity|]); now repeat split.
Qed.

Lemma start_popen_failure_state_witness :
  exists r',
    start no_files false draining1 defaultSettings true = (r', false)
    /\ m_isRecording r' = false
    /\ m_ffmpegPipe r' = nullptr
    /\ m_isReady r' = true
    /\ m_settings r' = adopted defaultSettings
    /\ m_nAddedFrames r' = 0
    /\ m_shouldQuitProcessing r' = false
    /\ m_thread r' = m_thread draining1.
Proof.
  apply (start_popen_failure_state no_files draining1 defaultSettings true).
  - reflexivity.
  - right. reflexivity.
  - reflexivity.
  - reflexivity.
Defined.

(** ** What one call or one worker step can change *)

Lemma addFrame_Done_frame fuel t_start t_now r pixels r' c :
  addFrame fuel t_start t_now r pixels = Done (r', c) ->
  m_settings r' = m_settings r
  /\ m_isRecording r' = m_isRecording r
  /\ m_isReady r' = m_isReady r
  /\ m_shouldQuitProcessing r' = m_shouldQuitProcessing r
  /\ m_ffmpegPipe r' = m_ffmpegPipe r
  /\ (m_thread r' = m_thread r
      \/ (isPipeOpen r = true /\ m_thread r' = Running AtOuterTest))
  /\ exists pushed, m_frames r' = m_frames r ++ pushed.
Proof.
  intros H.
  destruct (addFrame_pushes _ _ _ _ _ _ _ H) as (pushed & Hfr & _).
  revert H. unfold addFrame, isPipeOpen.
  destruct (m_isRecording r) eqn:Hrec; cbn [negb];
    [|intros [= <- <-]; repeat split; eauto].
  destruct (non_null (m_ffmpegPipe r)) eqn:Hpipe; cbn [negb];
    [|intros [= <- <-]; repeat split; eauto].
  destruct (isAllocated pixels); cbn [negb];
    [|intros [= <- <-]; repeat split; eauto].
  unfold addFrame_first.
  destruct (m_nAddedFrames r =? 0).
  - destruct (m_thread r) eqn:Hth; try discriminate;
      (destruct (framesToWrite_of t_now _); [|discriminate]);
      (destruct (addFrame_loop _ _ _ _); [|discriminate]);
      intros [= <- <-]; cbn; repeat split; eauto.
  - destruct (framesToWrite_of t_now r); [|discriminate].
    destruct (addFrame_loop _ _ _ _); [|discriminate].
    intros [= <- <-]; cbn; repeat split; eauto.
Qed.

Lemma drain_step_frame i r r' handed :
  drain_step i r = Some (r', handed) ->
  worker_running r = true
  /\ m_settings r' = m_settings r
  /\ m_isRecording r' = m_isRecording r
  /\ m_shouldQuitProcessing r' = m_shouldQuitProcessing r
  /\ m_nAddedFrames r' = m_nAddedFrames r
  /\ ((m_ffmpegPipe r' = m_ffmpegPipe r /\ m_isReady r' = m_isReady r
       /\ worker_running r' = true)
      \/ (m_ffmpegPipe r' = nullptr /\ m_isReady r' = true
          /\ m_thread r' = Returned /\ handed = []
          /\ m_frames r' = m_frames r))
  /\ ((m_frames r' = m_frames r /\ handed = [])
      \/ exists e, m_frames r = e :: m_frames r'
                   /\ handed = if isPipeOpen r then [e] else []).
Proof.
  unfold drain_step, worker_running, isPipeOpen.
  destruct (m_thread r) as [|[|last|last|]|] eqn:Hth; try discriminate.
  - destruct (m_isRecording r && negb (m_shouldQuitProcessing r));
      intros [= <- <-]; cbn; rewrite ?Hth; repeat split; auto.
  - destruct ((0 <? numFramesInQueue r) && negb (m_shouldQuitProcessing r));
      intros [= <- <-]; cbn; rewrite ?Hth; repeat split; auto.
  - destruct (Qle_bool _ _);
      [|intros [= <- <-]; cbn; rewrite ?Hth; repeat split; auto].
    destruct (m_frames r) as [|e rest] eqn:Hq; cbn [LockFreeQueue.consume];
      [intros [= <- <-]; cbn; rewrite ?Hth, ?Hq; repeat split; auto|].
    change (m_ffmpegPipe (with_frames r rest)) with (m_ffmpegPipe r).
    destruct (write_failed _ _ _); intros [= <- <-]; cbn;
      (repeat split; auto; right; exists e; split; [reflexivity|]);
      destruct (m_ffmpegPipe r); reflexivity.
  - intros [= <- <-]. cbn. repeat split; auto.
    right. now repeat split.
Qed.

Lemma start_frame fileExists popen_ok r settings force :
  let r' := fst (start fileExists popen_ok r settings force) in
  (ready_is_closed r -> ready_is_closed r')
  /\ (force = false -> ready_is_closed r -> ready_is_idle r -> ready_is_idle r')
  /\ (force = false -> m_frames r' = m_frames r).
Proof.
  cbv zeta. rewrite start_unfold. unfold ready_is_closed, ready_is_idle,
    isPipeOpen, worker_running.
  destruct (m_isRecording r); [cbn; auto|].
  destruct (m_isReady r) eqn:Hready; cbn [orb].
  - cbv zeta.
    destruct (empty (outputPath settings)); [cbn; rewrite Hready; auto|].
    destruct (refuses_overwrite fileExists r); [cbn; rewrite Hready; auto|].
    rewrite adopt_state. cbn. destruct popen_ok; cbn; repeat split; auto;
      discriminate.
  - destruct force; [|cbn; rewrite Hready; auto]. cbv zeta.
    destruct (empty (outputPath settings));
      [cbn; rewrite Hready; repeat split; auto; discriminate|].
    destruct (refuses_overwrite fileExists r);
      [cbn; rewrite Hready; repeat split; auto; discriminate|].
    rewrite adopt_state. cbn. destruct popen_ok; cbn; repeat split; auto;
      discriminate.
Qed.

(** ** Invariants of whole runs *)

Example sample_run : run no_files sample_events world0 = Some sample_end.
Proof. vm_compute. reflexivity. Qed.

Example sample_end_written :
  sink sample_end = [ExternalView frame2x2; ExternalView frame2x2]
  /\ m_frames (recorder sample_end) = [OwnedCopy frame2x2].
Proof. split; reflexivity. Qed.

Lemma step_ready_is_closed fileExists e w w' :
  step fileExists e w = Some w' ->
  ready_is_closed (recorder w) -> ready_is_closed (recorder w').
Proof.
  destruct e as [[settings force popen_ok| |fuel t_start t_now pixels]|i];
    cbn [step caller_step option_map].
  - intros [= <-]. cbn [recorder]. apply start_frame.
  - intros [= <-]. cbn [recorder]. auto.
  - destruct (addFrame _ _ _ _ _) as [[r' c]| | |] eqn:E; try discriminate.
    intros [= <-]. cbn [recorder].
    apply addFrame_Done_frame in E as (_ & _ & Hr & _ & Hp & _).
    unfold ready_is_closed, isPipeOpen. now rewrite Hr, Hp.
  - destruct (drain_step i (recorder w)) as [[r' handed]|] eqn:E;
      [|discriminate].
    intros [= <-]. cbn [recorder fst].
    apply drain_step_frame in E as (_ & _ & _ & _ & _ & Hc & _).
    unfold ready_is_closed, isPipeOpen.
    destruct Hc as [(Hp & Hr & _)|(Hp & Hr & _)]; rewrite Hr, Hp; auto.
Qed.

(** X4: [m_isReady] is true exactly when [m_ffmpegPipe] is null, after every
    sequence of calls and worker steps, forced restarts included. *)
Theorem ready_iff_pipe_closed fileExists es : forall w w',
  ready_is_closed (recorder w) ->
  run fileExists es w = Some w' ->
  ready_is_closed (recorder w').
Proof.
  induction es as [|e es IH]; intros w w' Hinv; cbn [run].
  - now intros [= <-].
  - destruct (step fileExists e w) as [w1|] eqn:E; [|discriminate].
    apply IH. eapply step_ready_is_closed; eassumption.
Qed.

Lemma ready_iff_pipe_closed_witness :
  ready_is_closed (recorder sample_end).
Proof.
  apply (ready_iff_pipe_closed no_files sample_events world0 sample_end).
  - reflexivity.
  - vm_compute. reflexivity.
Defined.

(** Without forced restarts a step keeps both invariants and moves entries
    only from the head of the queue to the end of what was written. *)
Lemma step_unforced fileExists e w w' :
  forced e = false ->
  step fileExists e w = Some w' ->
  ready_is_closed (recorder w) -> ready_is_idle (recorder w) ->
  ready_is_idle (recorder w')
  /\ exists pushed,
       sink w' ++ m_frames (recorder w')
       = (sink w ++ m_frames (recorder w)) ++ pushed.
Proof.
  intros Hf Hstep Hc Hi.
  destruct e as [[settings force popen_ok| |fuel t_start t_now pixels]|i];
    cbn [step caller_step option_map] in Hstep.
  - injection Hstep as <-. cbn [recorder sink].
    assert (force = false) as -> by (now destruct force).
    destruct (start_frame fileExists popen_ok (recorder w) settings false)
      as (_ & Hidle & Hq).
    split; [now apply Hidle|]. exists []. rewrite Hq, app_nil_r; reflexivity.
  - injection Hstep as <-. cbn [recorder sink]. split; [exact Hi|].
    exists []. now rewrite app_nil_r.
  - destruct (addFrame _ _ _ _ _) as [[r' c]| | |] eqn:E; try discriminate.
    injection Hstep as <-. cbn [recorder sink].
    apply addFrame_Done_frame in E
      as (_ & _ & Hr & _ & Hp & Hth & pushed & Hq).
    split.
    + unfold ready_is_idle, worker_running in *. rewrite Hr. intros Hready.
      destruct Hth as [->|(Hopen & _)]; [auto|].
      unfold ready_is_closed in Hc. rewrite Hready, Hopen in Hc. discriminate.
    + exists pushed. now rewrite Hq, app_assoc.
  - destruct (drain_step i (recorder w)) as [[r' handed]|] eqn:E;
      [|discriminate].
    injection Hstep as <-. cbn [recorder sink fst snd].
    apply drain_step_frame in E as (Hrun & _ & _ & _ & _ & Hcl & Hq).
    assert (Hopen : isPipeOpen (recorder w) = true).
    { unfold ready_is_closed, ready_is_idle in *.
      destruct (m_isReady (recorder w)); [rewrite Hi in Hrun; congruence|].
      now destruct (isPipeOpen (recorder w)). }
    split.
    + unfold ready_is_idle, worker_running in *.
      destruct Hcl as [(_ & Hr & Hw)|(_ & _ & -> & _)]; [|reflexivity].
      rewrite Hr. intros Hready. rewrite (Hi Hready) in Hrun. discriminate.
    + exists []. rewrite app_nil_r.
      destruct Hq as [(-> & ->)|(e & -> & ->)]; [now rewrite app_nil_r|].
      rewrite Hopen, <- app_assoc. reflexivity.
Qed.

Lemma run_unforced fileExists es : forall w w',
  forallb (fun e => negb (forced e)) es = true ->
  ready_is_closed (recorder w) -> ready_is_idle (recorder w) ->
  run fileExists es w = Some w' ->
  ready_is_idle (recorder w')
  /\ exists pushed,
       sink w' ++ m_frames (recorder w')
       = (sink w ++ m_frames (recorder w)) ++ pushed.
Proof.
  induction es as [|e es IH]; intros w w' Hf Hc Hi; cbn [run].
  - intros [= <-]. split; [exact Hi|]. exists []. now rewrite app_nil_r.
  - cbn [forallb] in Hf. apply andb_true_iff in Hf as [He Hf].
    apply negb_true_iff in He.
    destruct (step fileExists e w) as [w1|] eqn:E; [|discriminate].
    intros Hrun.
    destruct (step_unforced _ _ _ _ He E Hc Hi) as (Hi1 & p1 & Hq1).
    pose proof (step_ready_is_closed _ _ _ _ E Hc) as Hc1.
    destruct (IH w1 w' Hf Hc1 Hi1 Hrun) as (Hi' & p2 & Hq2).
    split; [exact Hi'|]. exists (p1 ++ p2).
    now rewrite Hq2, Hq1, <- !app_assoc.
Qed.

(** X5: as long as no restart is forced, a recorder that reports ready has no
    worker inside [processFrame]: a [start] that goes through never shares
    the pipe, the queue or the flags with the worker of the session before. *)
Theorem unforced_ready_is_idle fileExists es w w' :
  forallb (fun e => negb (forced e)) es = true ->
  ready_is_closed (recorder w) -> ready_is_idle (recorder w) ->
  run fileExists es w = Some w' ->
  ready_is_idle (recorder w').
Proof. intros Hf Hc Hi Hrun. eapply run_unforced; eassumption. Qed.

Lemma unforced_ready_is_idle_witness :
  ready_is_idle (recorder sample_end).
Proof.
  apply (unforced_ready_is_idle no_files sample_events world0 sample_end).
  - reflexivity.
  - reflexivity.
  - intros _. reflexivity.
  - vm_compute. reflexivity.
Defined.

(** ** [wantsFrame], [addFrame] and [stop] together *)




(** Once [stop] has run, [addFrame] returns 0 for every frame and leaves the
    recorder as it is, and [wantsFrame] answers false at every clock
    reading. *)
Lemma stop_ends_submissions fuel t_start t_now r pixels :
  addFrame fuel t_start t_now (stop r) pixels = Done (stop r, 0)
  /\ wantsFrame t_now (stop r) = Some false
  /\ m_frames (stop r) = m_frames r
  /\ m_ffmpegPipe (stop r) = m_ffmpegPipe r.
Proof. repeat split. Qed.

Lemma step_stopped fileExists e w w' :
  is_start e = false ->
  m_isRecording (recorder w) = false ->
  step fileExists e w = Some w' ->
  m_isRecording (recorder w') = false
  /\ exists popped,
       m_frames (recorder w) = popped ++ m_frames (recorder w').
Proof.
  intros Hs Hrec.
  destruct e as [[settings force popen_ok| |fuel t_start t_now pixels]|i];
    cbn [step caller_step option_map]; try discriminate.
  - intros [= <-]. split; [reflexivity|]. now exists [].
  - rewrite addFrame_rejects by auto.
    intros [= <-]. split; [exact Hrec|]. now exists [].
  - destruct (drain_step i (recorder w)) as [[r' handed]|] eqn:E;
      [|discriminate].
    intros [= <-]. cbn [recorder fst].
    apply drain_step_frame in E as (_ & _ & Hr & _ & _ & _ & Hq).
    split; [now rewrite Hr|].
    destruct Hq as [(-> & _)|(e & -> & _)]; [now exists [] | now exists [e]].
Qed.

(** X9: [stop] closes the queue to the caller.  From a recorder that is not
    recording, and until [start] is called again, no call and no worker step
    adds an entry to the queue: entries only leave it, from the head, and the
    recorder stays stopped. *)
Theorem stopped_queue_only_shrinks fileExists es : forall w w',
  forallb (fun e => negb (is_start e)) es = true ->
  m_isRecording (recorder w) = false ->
  run fileExists es w = Some w' ->
  m_isRecording (recorder w') = false
  /\ exists popped,
       m_frames (recorder w) = popped ++ m_frames (recorder w').
Proof.
  induction es as [|e es IH]; intros w w' Hs Hrec; cbn [run].
  - intros [= <-]. split; [exact Hrec|]. now exists [].
  - cbn [forallb] in Hs. apply andb_true_iff in Hs as [He Hs].
    apply negb_true_iff in He.
    destruct (step fileExists e w) as [w1|] eqn:E; [|discriminate].
    intros Hrun.
    destruct (step_stopped _ _ _ _ He Hrec E) as (Hrec1 & p1 & Hq1).
    destruct (IH w1 w' Hs Hrec1 Hrun) as (Hrec' & p2 & Hq2).
    split; [exact Hrec'|]. exists (p1 ++ p2).
    now rewrite Hq1, Hq2, app_assoc.
Qed.

Lemma stopped_queue_only_shrinks_witness :
  m_isRecording (recorder stopped_end) = false
  /\ exists popped,
       m_frames (recorder draining_world)
       = popped ++ m_frames (recorder stopped_end).
Proof.
  apply (stopped_queue_only_shrinks no_files stopped_events
           draining_world stopped_end).
  - reflexivity.
  - reflexivity.
  - vm_compute. reflexivity.
Defined.

Example stopped_end_written :
  sink stopped_end = [ExternalView frame2x2]
  /\ m_frames (recorder stopped_end) = [].
Proof. split; reflexivity. Qed.

(** ** The worker thread *)

Lemma run_app fileExists es1 : forall es2 w,
  run fileExists (es1 ++ es2) w
  = match run fileExists es1 w with
    | Some w1 => run fileExists es2 w1
    | None => None
    end.
Proof.
  induction es1 as [|e es1 IH]; intros es2 w; cbn [app run]; [reflexivity|].
  destruct (step fileExists e w); [apply IH | reflexivity].
Qed.

(** X11: a worker that is inside its inner loop when the recording is
    stopped finishes the job.  With no quit signal, an open pipe, a frame
    duration elapsed before each write and every write complete, it writes
    the whole queue in order, then leaves both loops, closes the pipe and
    returns with the recorder ready. *)
Theorem stopped_worker_drains_and_returns
        fileExists q inputs r last written i1 i2 i3 :
  m_thread r = Running (AtInnerTest last) ->
  m_frames r = q ->
  m_isRecording r = false ->
  m_shouldQuitProcessing r = false ->
  m_ffmpegPipe r = ffmpegStdin ->
  0 < dataLength r ->
  drains (1 / fps (m_settings r)) (dataLength r) last q inputs ->
  exists r',
    run fileExists (map Worker (inputs ++ [i1; i2; i3])) (mkWorld r written)
    = Some (mkWorld r' (written ++ q))
    /\ m_frames r' = []
    /\ m_thread r' = Returned
    /\ m_ffmpegPipe r' = nullptr
    /\ m_isReady r' = true.
Proof.
  intros Hpc Hq Hrec Hquit Hpipe Hlen Hd.
  destruct (inner_loop_writes_whole_queue fileExists q inputs r last written
              Hpc Hq Hquit Hpipe Hlen Hd) as (r1 & last1 & Hrun & Hr1).
  rewrite map_app, run_app, Hrun. subst r1.
  cbn [map run step recorder sink option_map].
  unfold drain_step at 1. cbn [m_thread with_thread].
  unfold numFramesInQueue, LockFreeQueue.size.
  cbn [m_frames with_thread with_frames List.length Z.of_nat Z.ltb Z.compare
       andb option_map fst snd recorder sink].
  unfold drain_step at 1. cbn [m_thread with_thread m_isRecording with_frames].
  rewrite Hrec. cbn [andb option_map fst snd recorder sink].
  unfold drain_step at 1. cbn [m_thread with_thread].
  cbn [option_map fst snd recorder sink closePipe].
  rewrite !app_nil_r.
  eexists. split; [reflexivity|]. now repeat split.
Qed.

Lemma stopped_worker_drains_and_returns_witness :
  exists r',
    run no_files
        (map Worker ([full_write (1 # 10); full_write (1 # 10)]
                     ++ [full_write 1; full_write 1; full_write 1]))
        (mkWorld (recorder draining_world) [])
    = Some (mkWorld r' ([] ++ [ExternalView frame2x2]))
    /\ m_frames r' = []
    /\ m_thread r' = Returned
    /\ m_ffmpegPipe r' = nullptr
    /\ m_isReady r' = true.
Proof.
  apply (stopped_worker_drains_and_returns no_files [ExternalView frame2x2]
           [full_write (1 # 10); full_write (1 # 10)]
           (recorder draining_world) 0).
  - reflexivity.
  - reflexivity.
  - reflexivity.
  - reflexivity.
  - reflexivity.
  - reflexivity.
  - cbn. repeat split; reflexivity.
Defined.

(** X12: a worker that finds the quit signal set at one of its loop
    conditions writes nothing more: within three steps it has closed the pipe
    and returned, and the queue is as it was. *)
Theorem quit_signal_ends_worker fileExists r written i1 i2 i3 :
  m_shouldQuitProcessing r = true ->
  at_loop_test r = true ->
  exists k r',
    (k <= 3)%nat
    /\ run fileExists (map Worker (firstn k [i1; i2; i3])) (mkWorld r written)
       = Some (mkWorld r' written)
    /\ m_thread r' = Returned
    /\ m_frames r' = m_frames r
    /\ m_ffmpegPipe r' = nullptr
    /\ m_isReady r' = true.
Proof.
  intros Hquit Hpc. unfold at_loop_test in Hpc.
  destruct (m_thread r) as [|[|last|last|]|] eqn:Hth; try discriminate.
  - exists 2%nat. eexists. split; [lia|].
    cbn [firstn map run step recorder sink].
    unfold drain_step at 1. rewrite Hth, Hquit, andb_false_r.
    cbn [option_map fst snd recorder sink].
    unfold drain_step at 1. cbn [m_thread with_thread].
    cbn [option_map fst snd recorder sink]. rewrite !app_nil_r.
    split; [reflexivity|]. now repeat split.
  - exists 3%nat. eexists. split; [lia|].
    cbn [firstn map run step recorder sink].
    unfold drain_step at 1. rewrite Hth, Hquit, andb_false_r.
    cbn [option_map fst snd recorder sink].
    unfold drain_step at 1. cbn [m_thread with_thread].
    change (m_isRecording (with_thread r (Running AtOuterTest)))
      with (m_isRecording r).
    change (m_shouldQuitProcessing (with_thread r (Running AtOuterTest)))
      with (m_shouldQuitProcessing r).
    rewrite Hquit, andb_false_r.
    cbn [option_map fst snd recorder sink].
    unfold drain_step at 1. cbn [m_thread with_thread].
    cbn [option_map fst snd recorder sink]. rewrite !app_nil_r.
    split; [reflexivity|]. now repeat split.
Qed.

Lemma quit_signal_ends_worker_witness :
  exists k r',
    (k <= 3)%nat
    /\ run no_files
           (map Worker (firstn k [full_write 0; full_write 0; full_write 0]))
           (mkWorld (fst (start no_files true draining1
                                settings_without_path true)) [])
       = Some (mkWorld r' [])
    /\ m_thread r' = Returned
    /\ m_frames r'
       = m_frames (fst (start no_files true draining1
                              settings_without_path true))
    /\ m_ffmpegPipe r' = nullptr
    /\ m_isReady r' = true.
Proof.
  apply (quit_signal_ends_worker no_files
           (fst (start no_files true draining1 settings_without_path true))
           [] (full_write 0) (full_write 0) (full_write 0)).
  - reflexivity.
  - reflexivity.
Defined.

Lemma drain_step_spinning i r :
  spinning r ->
  exists pc,
    drain_step i r = Some (with_thread r (Running pc), [])
    /\ spinning (with_thread r (Running pc)).
Proof.
  intros (Hrec & Hquit & Hq & Hpc). unfold at_loop_test in Hpc.
  unfold drain_step, spinning, at_loop_test.
  destruct (m_thread r) as [|[|last|last|]|] eqn:Hth; try discriminate.
  - rewrite Hrec, Hquit. cbn [andb negb]. eexists. split; [reflexivity|].
    cbn. auto.
  - unfold numFramesInQueue, LockFreeQueue.size. rewrite Hq.
    cbn [List.length Z.of_nat Z.ltb Z.compare andb]. eexists.
    split; [reflexivity|]. cbn. auto.
Qed.

(** X13: a recording session whose queue is empty and whose frame counter is
    zero, while a worker of an earlier session is still at one of its loop
    conditions, cannot take its first frame.  [addFrame] waits in
    [m_thread.join()], and the worker, seeing a recording without a quit
    signal, goes round its loops through any number of steps without
    returning and without writing. *)
Theorem old_worker_blocks_first_frame fileExists r pixels inputs written :
  spinning r ->
  m_nAddedFrames r = 0 ->
  accepted r pixels ->
  exists pc,
    run fileExists (map Worker inputs) (mkWorld r written)
    = Some (mkWorld (with_thread r (Running pc)) written)
    /\ forall fuel t_start t_now,
         addFrame fuel t_start t_now (with_thread r (Running pc)) pixels
         = Blocked.
Proof.
  intros Hspin Hz (Hrec & Hpipe & Halloc).
  assert (Hrun : exists pc,
             run fileExists (map Worker inputs) (mkWorld r written)
             = Some (mkWorld (with_thread r (Running pc)) written)).
  { revert r Hspin Hz Hrec Hpipe.
    induction inputs as [|i inputs IH]; intros r Hspin Hz Hrec Hpipe.
    - destruct Hspin as (_ & _ & _ & Hpc). unfold at_loop_test in Hpc.
      destruct (m_thread r) as [|pc|] eqn:Hth; try discriminate.
      exists pc. cbn [map run]. do 2 f_equal.
      destruct r; cbn in *; now subst.
    - destruct (drain_step_spinning i r Hspin) as (pc & Hstep & Hspin1).
      cbn [map run step recorder sink]. rewrite Hstep.
      cbn [option_map fst snd]. rewrite app_nil_r.
      destruct (IH (with_thread r (Running pc)) Hspin1 Hz Hrec Hpipe)
        as (pc' & Hrun).
      exists pc'. exact Hrun. }
  destruct Hrun as (pc & Hrun). exists pc. split; [exact Hrun|].
  intros fuel t_start t_now. unfold addFrame, isPipeOpen in *.
  cbn [m_isRecording m_ffmpegPipe with_thread].
  rewrite Hrec, Hpipe, Halloc. cbn [negb]. unfold addFrame_first.
  cbn [m_nAddedFrames m_thread with_thread]. rewrite Hz. reflexivity.
Qed.

Lemma old_worker_blocks_first_frame_witness :
  exists pc,
    run no_files
        (map Worker [full_write 0; full_write 1; full_write 2; full_write 3])
        (mkWorld restarted1 [])
    = Some (mkWorld (with_thread restarted1 (Running pc)) [])
    /\ forall fuel t_start t_now,
         addFrame fuel t_start t_now (with_thread restarted1 (Running pc))
                  frame2x2
         = Blocked.
Proof.
  apply (old_worker_blocks_first_frame no_files restarted1 frame2x2
           [full_write 0; full_write 1; full_write 2; full_write 3] []).
  - repeat split; reflexivity.
  - reflexivity.
  - repeat split; reflexivity.
Defined.

(** ** A witness for an earlier lemma *)


(** ** The first frame after a forced restart *)

(** A worker that finds a recording without quit signal and without frames
    goes round its loops for as long as it is given steps. *)
Lemma spinning_worker_keeps_running fileExists inputs : forall r written,
  spinning r ->
  exists pc,
    run fileExists (map Worker inputs) (mkWorld r written)
    = Some (mkWorld (with_thread r (Running pc)) written).
Proof.
  induction inputs as [|i inputs IH]; intros r written Hspin.
  - destruct Hspin as (_ & _ & _ & Hpc). unfold at_loop_test in Hpc.
    destruct (m_thread r) as [|pc|] eqn:Hth; try discriminate.
    exists pc. cbn [map run]. do 2 f_equal.
    destruct r; cbn in *; now subst.
  - destruct (drain_step_spinning i r Hspin) as (pc & Hstep & Hspin1).
    cbn [map run step recorder sink]. rewrite Hstep.
    cbn [option_map fst snd]. rewrite app_nil_r.
    destruct (IH (with_thread r (Running pc)) written Hspin1) as (pc' & Hrun).
    exists pc'. exact Hrun.
Qed.

Lemma addFrame_paced_blocked pacing fuel t_start t_now r pixels pc :
  accepted r pixels ->
  m_nAddedFrames r = 0 ->
  m_thread r = Running pc ->
  addFrame_paced pacing fuel t_start t_now r pixels = Blocked.
Proof.
  intros (Hrec & Hpipe & Halloc) Hz Hth. unfold addFrame_paced, isPipeOpen in *.
  rewrite Hrec, Hpipe, Halloc. cbn [negb]. unfold addFrame_first.
  now rewrite Hz, Hth.
Qed.

(** C6, the failing case.  A session is started, takes one frame and is
    stopped; before the worker of that session has run, [start] is forced and
    succeeds: it sets the quit signal on line 50 and clears it again on line
    107.  The recorder is now recording with frame counter zero, and the old
    worker finds nothing that tells it to leave.  The first frame of the new
    session is accepted by the three guards and then waits in
    [m_thread.join()]: however many steps the worker takes, it is still
    running, nothing has been queued, and [addFrame] does not return,
    whatever the clock readings and the pacing arithmetic are. *)
Theorem first_frame_after_forced_restart_never_returns :
  run no_files forced_restart_events world0 = Some (mkWorld restarted1 [])
  /\ m_nAddedFrames restarted1 = 0
  /\ accepted restarted1 frame2x2
  /\ forall inputs,
       exists pc,
         run no_files (map Worker inputs) (mkWorld restarted1 [])
         = Some (mkWorld (with_thread restarted1 (Running pc)) [])
         /\ m_frames (with_thread restarted1 (Running pc)) = []
         /\ forall pacing fuel t_start t_now,
              addFrame_paced pacing fuel t_start t_now
                             (with_thread restarted1 (Running pc)) frame2x2
              = Blocked.
Proof.
  split; [vm_compute; reflexivity|].
  split; [reflexivity|].
  split; [repeat split; reflexivity|].
  intros inputs.
  destruct (spinning_worker_keeps_running no_files inputs restarted1 [])
    as (pc & Hrun); [repeat split; reflexivity|].
  exists pc. split; [exact Hrun|]. split; [reflexivity|].
  intros pacing fuel t_start t_now.
  apply addFrame_paced_blocked with pc; [repeat split| |]; reflexivity.
Qed.

(** ** Frames are written in the order of their submission *)

Lemma appended_app (q pushed : list QueuedPixels) :
  appended q (q ++ pushed) = pushed.
Proof.
  unfold appended. induction q as [|e q IH]; [reflexivity | exact IH].
Qed.

Lemma appended_same (q : list QueuedPixels) : appended q q = [].
Proof.
  rewrite <- (app_nil_r q) at 2. apply appended_app.
Qed.

(** Without forced restarts a step moves entries only from the head of the
    queue to the end of what was written, and adds to the queue exactly what
    an [addFrame] call appends. *)
Lemma step_fifo fileExists e w w' :
  forced e = false ->
  step fileExists e w = Some w' ->
  ready_is_closed (recorder w) -> ready_is_idle (recorder w) ->
  sink w' ++ m_frames (recorder w')
  = (sink w ++ m_frames (recorder w)) ++ queued_by_step e w.
Proof.
  intros Hf Hstep Hc Hi.
  destruct e as [[settings force popen_ok| |fuel t_start t_now pixels]|i];
    cbn [step caller_step option_map queued_by_step] in *.
  - injection Hstep as <-. cbn [recorder sink].
    assert (force = false) as -> by (now destruct force).
    destruct (start_frame fileExists popen_ok (recorder w) settings false)
      as (_ & _ & Hq).
    now rewrite Hq, app_nil_r.
  - injection Hstep as <-. cbn [recorder sink]. now rewrite app_nil_r.
  - destruct (addFrame _ _ _ _ _) as [[r' c]| | |] eqn:E; try discriminate.
    injection Hstep as <-. cbn [recorder sink].
    apply addFrame_Done_frame in E as (_ & _ & _ & _ & _ & _ & pushed & Hq).
    now rewrite Hq, appended_app, app_assoc.
  - destruct (drain_step i (recorder w)) as [[r' handed]|] eqn:E;
      [|discriminate].
    injection Hstep as <-. cbn [recorder sink fst snd].
    apply drain_step_frame in E as (Hrun & _ & _ & _ & _ & _ & Hq).
    assert (Hopen : isPipeOpen (recorder w) = true).
    { unfold ready_is_closed, ready_is_idle in *.
      destruct (m_isReady (recorder w)); [rewrite Hi in Hrun; congruence|].
      now destruct (isPipeOpen (recorder w)). }
    rewrite app_nil_r.
    destruct Hq as [(-> & ->)|(e & -> & ->)]; [now rewrite app_nil_r|].
    rewrite Hopen, <- app_assoc. reflexivity.
Qed.

(** X6: as long as no restart is forced, frames reach the pipe in the order
    in which they were queued, none is lost and none is written twice: at
    the end of a run, what was handed to [fwrite] followed by what is still
    queued is what these two were at the beginning, followed by exactly the
    entries that the [addFrame] calls of the run appended, in the order of
    the calls. *)
Theorem unforced_run_is_fifo fileExists es : forall w w',
  forallb (fun e => negb (forced e)) es = true ->
  ready_is_closed (recorder w) -> ready_is_idle (recorder w) ->
  run fileExists es w = Some w' ->
  sink w' ++ m_frames (recorder w')
  = (sink w ++ m_frames (recorder w)) ++ queued_by fileExists es w.
Proof.
  induction es as [|e es IH]; intros w w' Hf Hc Hi; cbn [run queued_by].
  - intros [= <-]. now rewrite app_nil_r.
  - cbn [forallb] in Hf. apply andb_true_iff in Hf as [He Hf].
    apply negb_true_iff in He.
    destruct (step fileExists e w) as [w1|] eqn:E; [|discriminate].
    intros Hrun.
    pose proof (step_fifo _ _ _ _ He E Hc Hi) as H1.
    destruct (step_unforced _ _ _ _ He E Hc Hi) as (Hi1 & _).
    pose proof (step_ready_is_closed _ _ _ _ E Hc) as Hc1.
    rewrite (IH w1 w' Hf Hc1 Hi1 Hrun), H1, <- !app_assoc. reflexivity.
Qed.

Example small_run : run no_files small_events world0 = Some small_end.
Proof. vm_compute. reflexivity. Qed.

Example small_run_queued :
  queued_by no_files small_events world0
  = [ExternalView frame2x2; ExternalView frame2x2; ExternalView frame2x2;
     OwnedCopy frame2x2]
  /\ sink small_end
     = [ExternalView frame2x2; ExternalView frame2x2; ExternalView frame2x2]
  /\ m_frames (recorder small_end) = [OwnedCopy frame2x2].
Proof. repeat split; vm_compute; reflexivity. Qed.

Lemma unforced_run_is_fifo_witness :
  sink small_end ++ m_frames (recorder small_end)
  = (sink world0 ++ m_frames (recorder world0))
    ++ queued_by no_files small_events world0.
Proof.
  apply (unforced_run_is_fifo no_files small_events world0 small_end).
  - reflexivity.
  - reflexivity.
  - intros _. reflexivity.
  - vm_compute. reflexivity.
Defined.

(** ** The first frame of a session *)

(** X14: take a call that passes the three guards and the join of line 157,
    with a count below 2^64 - 1 from the pacing arithmetic, however it
    rounds.  The call returns.  If it is the first of its session (frame
    counter zero) it has stored its own clock reading as the start time and
    launched the worker at the top of [processFrame]: the timeline begins
    with the first frame, not with [start].  A later call leaves the start
    time and the worker thread as they were. *)
Theorem addFrame_first_frame_starts_timeline
        pacing t_start t_now r pixels n :
  accepted r pixels ->
  0 <= m_nAddedFrames r < UINT_MODULUS ->
  (m_nAddedFrames r = 0 -> worker_running r = false) ->
  pacing t_now (start_of t_start r) (m_nAddedFrames r) (fps (m_settings r))
  = Some n ->
  0 <= n < SIZE_MODULUS - 1 ->
  exists fuel r' c,
    addFrame_paced pacing fuel t_start t_now r pixels = Done (r', c)
    /\ (m_nAddedFrames r = 0 ->
        m_recordStartTime r' = t_start /\ m_thread r' = Running AtOuterTest)
    /\ (m_nAddedFrames r <> 0 ->
        m_recordStartTime r' = m_recordStartTime r
        /\ m_thread r' = m_thread r).
Proof.
  intros Hacc Hn Hj Hftw [Hn0 Hmax].
  assert (Hex : 0 <= extra_pass (m_nAddedFrames r) n <= 1)
    by (unfold extra_pass; destruct (_ =? 0); lia).
  destruct (addFrame_paced_accepts pacing t_start t_now r pixels n
              Hacc Hn Hj Hftw Hn0) as (r' & Hrun & _ & _ & Hst & Hth); [lia|].
  do 3 eexists. split; [exact Hrun|].
  unfold start_of in Hst.
  destruct (Z.eqb_spec (m_nAddedFrames r) 0) as [Hz|Hz].
  - split; [intros _; now split | contradiction].
  - split; [contradiction | intros _; now split].
Qed.

Lemma addFrame_first_frame_starts_timeline_witness :
  exists fuel r' c,
    addFrame_paced exact_pacing fuel 0 0 session0 frame2x2 = Done (r', c)
    /\ (m_nAddedFrames session0 = 0 ->
        m_recordStartTime r' = 0%Q /\ m_thread r' = Running AtOuterTest)
    /\ (m_nAddedFrames session0 <> 0 ->
        m_recordStartTime r' = m_recordStartTime session0
        /\ m_thread r' = m_thread session0).
Proof.
  apply (addFrame_first_frame_starts_timeline exact_pacing 0 0 session0
           frame2x2 0).
  - repeat split; reflexivity.
  - change (0 <= 0 < 4294967296). lia.
  - intros _. reflexivity.
  - reflexivity.
  - rewrite SIZE_MODULUS_eq. lia.
Defined.
